(** * vscode-music: the platform polling and track reconciliation engine

    A shallow embedding of [src/linux/musicService.ts],
    [src/windows/musicService.ts] and [src/windows/utils/artworkUtil.ts],
    and the properties of the change predicate, the normalizers, the
    artwork resolver and the command dispatcher.

    Conventions of the embedding.
    - A JavaScript string is a [string]: a sequence of code units below 256.
    - A JavaScript number that the code computes from [parseInt] is a
      double with an integer value, an infinity or NaN: [JS.number].
      [JS.Num z] is the double of value [z]; Infinity and -Infinity are
      [JS.Num (2^1024)] and [JS.Num (- 2^1024)], the first magnitude above
      every double, so that a difference of two numbers compares with 2 as
      it does in the code.  [parseInt], products and sums round to the
      nearest double, ties to even, and are exact up to 2^53.  The sign of
      zero is not tracked.
    - [undefined] in an optional field is [None].
    - Child processes, the disk, the network and the editor's message
      boxes are a [Host] state threaded through every operation, with the
      answers of the outside world given by a [Platform]. *)

From Stdlib Require Import ZArith String Ascii List Lia Bool DecimalString.
From stdpp Require Import gmap strings list.

Local Open Scope Z_scope.

(* ===================================================================== *)
(** * The JavaScript primitives the services use *)
(* ===================================================================== *)

Module JS.

(** A number: the integer value of a double, [infinity] and its opposite
    for the two infinities, or NaN. *)
Inductive number : Type :=
| Num (z : Z)
| NaN.

(** [Num infinity] is Infinity and [Num (- infinity)] is -Infinity. *)
Definition infinity : Z := 2 ^ 1024.

Definition isInfinite (z : Z) : bool := Z.abs z =? infinity.

(** The double nearest to an integer, ties to even: the integer itself
    below 2^53, else its 53 leading bits rounded, and an infinity from
    2^1024 - 2^970 on. *)
Definition toDouble (z : Z) : Z :=
  let a := Z.abs z in
  if a <? 2 ^ 53 then z
  else
    let e := Z.log2 a - 52 in
    let q := Z.shiftr a e in
    let r := a - Z.shiftl q e in
    let half := Z.shiftl 1 (e - 1) in
    let q' := if (half <? r) || ((r =? half) && Z.odd q) then q + 1 else q in
    let v := Z.shiftl q' e in
    Z.sgn z * (if infinity <=? v then infinity else v).

(** [a * b] and [a + b] on doubles: NaN is absorbing, and so are
    Infinity times 0 and Infinity plus -Infinity. *)
Definition mul (a b : number) : number :=
  match a, b with
  | Num x, Num y =>
      if (isInfinite x && (y =? 0)) || ((x =? 0) && isInfinite y) then NaN
      else Num (toDouble (x * y))
  | _, _ => NaN
  end.

Definition add (a b : number) : number :=
  match a, b with
  | Num x, Num y =>
      if isInfinite x then (if y =? - x then NaN else Num x)
      else if isInfinite y then Num y
      else Num (toDouble (x + y))
  | _, _ => NaN
  end.

(** [n || 0]: NaN and 0 are falsy. *)
Definition numOrZero (n : number) : Z :=
  match n with
  | Num z => z
  | NaN => 0
  end.

(** [n || 0] on an optional number: undefined is falsy too. *)
Definition orZero (n : option number) : Z :=
  match n with
  | Some x => numOrZero x
  | None => 0
  end.

(** [n || null]: the number when it is truthy. *)
Definition orNull (n : option number) : option number :=
  match n with
  | Some (Num z) => if z =? 0 then None else Some (Num z)
  | _ => None
  end.

(** [s || d] on strings: the empty string is falsy. *)
Definition orElse (s d : string) : string :=
  match s with
  | EmptyString => d
  | _ => s
  end.

Definition code (c : ascii) : N := N_of_ascii c.

(** WhiteSpace and LineTerminator code units below 256. *)
Definition isWhiteSpace (c : ascii) : bool :=
  let n := code c in
  (((9 <=? n) && (n <=? 13)) || (n =? 32) || (n =? 160))%N.

Fixpoint trimStart (s : string) : string :=
  match s with
  | EmptyString => EmptyString
  | String c s' => if isWhiteSpace c then trimStart s' else s
  end.

Definition trimEnd (s : string) : string :=
  String.rev (trimStart (String.rev s)).

(** [s.trim()] *)
Definition trim (s : string) : string := trimEnd (trimStart s).

Definition lowerChar (c : ascii) : ascii :=
  let n := code c in
  if (((65 <=? n) && (n <=? 90)) || ((192 <=? n) && (n <=? 214))
      || ((216 <=? n) && (n <=? 222)))%N
  then ascii_of_N (n + 32) else c.

(** [s.toLowerCase()] *)
Fixpoint toLowerCase (s : string) : string :=
  match s with
  | EmptyString => EmptyString
  | String c s' => String (lowerChar c) (toLowerCase s')
  end.

(** Whether [p] is a prefix of [s]. *)
Fixpoint isPrefix (p s : string) : bool :=
  match p with
  | EmptyString => true
  | String a p' =>
      match s with
      | EmptyString => false
      | String b s' => Ascii.eqb a b && isPrefix p' s'
      end
  end.

(** [s.startsWith(p)] *)
Definition startsWith (s p : string) : bool := isPrefix p s.

(** [s.includes(p)] *)
Fixpoint includes (s p : string) : bool :=
  isPrefix p s ||
  match s with
  | EmptyString => false
  | String _ s' => includes s' p
  end.

Fixpoint drop (n : nat) (s : string) : string :=
  match n, s with
  | O, _ => s
  | S _, EmptyString => EmptyString
  | S k, String _ s' => drop k s'
  end.

(** [s.replace(pat, rep)] with a string pattern: the first occurrence. *)
Fixpoint replace (s pat rep : string) : string :=
  if isPrefix pat s then rep +:+ drop (String.length pat) s
  else match s with
       | EmptyString => EmptyString
       | String c s' => String c (replace s' pat rep)
       end.

(** [s.split(sep)] for a non-empty separator: [cur] is the piece being
    read, reversed; [skip] counts the code units of a separator still
    to be passed over. *)
Fixpoint splitGo (sep : string) (s : string) (skip : nat) (cur : string)
  : list string :=
  match s with
  | EmptyString => [String.rev cur]
  | String c s' =>
      match skip with
      | S k => splitGo sep s' k cur
      | O =>
          if isPrefix sep s
          then String.rev cur :: splitGo sep s' (String.length sep - 1) EmptyString
          else splitGo sep s' O (String c cur)
      end
  end.

Definition split (s sep : string) : list string := splitGo sep s O EmptyString.

(** The value of a digit or letter in [parseInt]. *)
Definition digitValue (c : ascii) : option Z :=
  let n := code c in
  if ((48 <=? n) && (n <=? 57))%N then Some (Z.of_N n - 48)
  else if ((97 <=? n) && (n <=? 122))%N then Some (Z.of_N n - 87)
  else if ((65 <=? n) && (n <=? 90))%N then Some (Z.of_N n - 55)
  else None.

(** The longest prefix of radix-[R] digits, read as an integer; [acc] is
    [None] until a digit has been read. *)
Fixpoint digits (R : Z) (s : string) (acc : option Z) : option Z :=
  match s with
  | EmptyString => acc
  | String c s' =>
      match digitValue c with
      | Some d =>
          if d <? R then digits R s' (Some (default 0 acc * R + d)) else acc
      | None => acc
      end
  end.

(** [parseInt(s, radix)]; [radix = 0] stands for a call without radix.
    The result is the double nearest to the integer the digits denote, as
    Node gives it for the decimal and the hexadecimal digits that the
    calls of the services can meet. *)
Definition parseInt (s : string) (radix : Z) : number :=
  let s1 := trimStart s in
  let '(sign, s2) :=
    match s1 with
    | String "-" r => (-1, r)
    | String "+" r => (1, r)
    | _ => (1, s1)
    end in
  if negb (radix =? 0) && ((radix <? 2) || (36 <? radix)) then NaN
  else
    let stripPrefix := (radix =? 0) || (radix =? 16) in
    let R0 := if radix =? 0 then 10 else radix in
    let '(R, s3) :=
      if stripPrefix && (isPrefix "0x" s2 || isPrefix "0X" s2)
      then (16, drop 2 s2) else (R0, s2) in
    match digits R s3 None with
    | Some v => Num (toDouble (sign * v))
    | None => NaN
    end.

(** [`${n}`] for an integer. *)
Definition showZ (z : Z) : string :=
  match z with
  | Z0 => "0"
  | Zpos p => NilZero.string_of_uint (Pos.to_uint p)
  | Zneg p => "-" +:+ NilZero.string_of_uint (Pos.to_uint p)
  end.

End JS.

(* ===================================================================== *)
(** * The track record and the pure parts of the two services *)
(* ===================================================================== *)

(** [TrackInfo] of common/interfaces/musicController.ts.  The status is
    kept as the string the service stored: the Linux service stores the
    helper's word lower-cased, whatever it is. *)
Record TrackInfo : Type := mkTrackInfo {
  title : string;
  artUrl : string;
  artist : string;
  album : string;
  duration : option JS.number;
  position : option JS.number;
  status : string;
  player : option string
}.

(** [hasTrackChanged], the same text in both services; [currentTrack] is
    the service's field [this.currentTrack]. *)
Definition hasTrackChanged (currentTrack newTrack : option TrackInfo) : bool :=
  match currentTrack, newTrack with
  | None, None => false
  | None, Some _ | Some _, None => true
  | Some cur, Some new =>
      negb (String.eqb (title cur) (title new))
      || negb (String.eqb (artist cur) (artist new))
      || negb (String.eqb (status cur) (status new))
      || (2 <? Z.abs (JS.orZero (position cur) - JS.orZero (position new)))
  end.

Module LinuxParse.

Definition delimiter : string := "|||".

(** [parseDuration] *)
Definition parseDuration (duration : string) : JS.number :=
  if String.eqb duration "" then JS.Num 0
  else
    let parts := JS.split duration ":" in
    if (length parts =? 2)%nat
    then JS.add (JS.mul (JS.parseInt (nth 0 parts "") 0) (JS.Num 60))
                (JS.parseInt (nth 1 parts "") 0)
    else JS.Num 0.

(** The status expression of [getCurrentTrack]:
    [parts[6]?.toLowerCase() || 'stopped']. *)
Definition statusOf (raw : string) : string :=
  JS.orElse (JS.toLowerCase raw) "stopped".

(** The body of the [close] handler of [getCurrentTrack] once the output
    is known to be non-blank.  [parts[i]] is read with [nth i parts ""]:
    the indices are below the length checked just before. *)
Definition parseOutput (output : string) : option TrackInfo :=
  let cleanedOutput := JS.trim output in
  let parts := JS.split cleanedOutput delimiter in
  if (8 <=? length parts)%nat then
    Some {| title := JS.orElse (nth 0 parts "") "Unknown Title";
            artUrl := JS.orElse (nth 1 parts "") "";
            artist := JS.orElse (nth 2 parts "") "Unknown Artist";
            album := JS.orElse (nth 3 parts "") "Unknown Album";
            position := Some (parseDuration (nth 4 parts ""));
            duration := Some (parseDuration (nth 5 parts ""));
            status := statusOf (nth 6 parts "");
            player := Some (JS.orElse (nth 7 parts "") "Unknown Player") |}
  else None.

End LinuxParse.

Module WindowsParse.

(** [parseTimeToSeconds] *)
Definition parseTimeToSeconds (timeString : string) : JS.number :=
  if String.eqb timeString "" || String.eqb timeString "00:00" then JS.Num 0
  else
    let parts := JS.split timeString ":" in
    if (length parts =? 2)%nat then
      let minutes := JS.numOrZero (JS.parseInt (nth 0 parts "") 10) in
      let seconds := JS.numOrZero (JS.parseInt (nth 1 parts "") 10) in
      JS.add (JS.mul (JS.Num minutes) (JS.Num 60)) (JS.Num seconds)
    else JS.Num 0.

(** [mapPlaybackStatus]; an undefined status is passed as [""], which
    the first test treats the same way. *)
Definition mapPlaybackStatus (status : string) : string :=
  if String.eqb status "" then "stopped"
  else
    let normalizedStatus := JS.toLowerCase status in
    if JS.includes normalizedStatus "play" then "playing"
    else if JS.includes normalizedStatus "pause" then "paused"
    else "stopped".

(** What [JSON.parse] hands to [getCurrentTrack], seen through the seven
    keys the service reads.  A key is [None] when it is missing or holds
    a falsy value, and [Some s] when it holds the non-empty or empty
    string [s]; the helper prints strings under these keys, and a key
    holding a truthy value of another type is not modelled. *)
Record WinKlangData : Type := mkWinKlangData {
  d_title : option string;
  d_artworkUri : option string;
  d_artist : option string;
  d_album : option string;
  d_currentTime : option string;
  d_duration : option string;
  d_status : option string
}.

(** The three ways [JSON.parse] ends: it throws; it returns [null], on
    which reading a key throws; it returns any other value. *)
Inductive Parsed : Type :=
| SyntaxError
| ParsedNull
| ParsedData (data : WinKlangData).

(** The [try] block of the [close] handler of [getCurrentTrack]; both
    throws end in the [catch], which resolves null. *)
Definition normalize (p : Parsed) : option TrackInfo :=
  match p with
  | SyntaxError | ParsedNull => None
  | ParsedData data =>
      Some {| title := JS.orElse (default "" (d_title data)) "Unknown Title";
              artUrl := JS.orElse (default "" (d_artworkUri data)) "";
              artist := JS.orElse (default "" (d_artist data)) "Unknown Artist";
              album := JS.orElse (default "" (d_album data)) "Unknown Album";
              position := Some (parseTimeToSeconds
                                  (JS.orElse (default "" (d_currentTime data)) "00:00"));
              duration := Some (parseTimeToSeconds
                                  (JS.orElse (default "" (d_duration data)) "00:00"));
              status := mapPlaybackStatus (default "" (d_status data));
              player := Some "Windows Media Session" |}
  end.

End WindowsParse.

(* ===================================================================== *)
(** * The outside world: child processes, disk, network, message boxes *)
(* ===================================================================== *)

(** How a spawned helper ends: it exits ([code] is [None] when a signal
    ended it and Node reports the code [null]), or the spawn itself fails
    and the child emits [error]. *)
Inductive ProcResult : Type :=
| Exited (code : option Z) (stdout stderr : string)
| SpawnFailed (message : string).

(** How the body of a 200 response ends after the write stream is open:
    it is streamed to the end ([finish]); the socket fails and the request
    emits [error]; or the stream dies with no event reaching the code. *)
Inductive Body : Type :=
| Complete
| SocketError
| Stalled.

(** How a GET ends: a response arrives, or the request emits [error]
    before any response. *)
Inductive Transfer : Type :=
| Response (statusCode : Z) (body : Body)
| RequestError.

(** An entry of the disk; a file knows whether it was written whole. *)
Inductive Entry : Type :=
| Directory
| File (whole : bool).

Inductive Notice : Type :=
| Warning (message : string)
| Information (message : string).

(** How a promise ends; [Pending] is a promise that is never settled. *)
Inductive Settled (A : Type) : Type :=
| Fulfilled (a : A)
| Rejected (message : string)
| Pending.
Arguments Fulfilled {A} a.
Arguments Rejected {A} message.
Arguments Pending {A}.

(** What the world answers.  [helper n argv] is the end of the child
    started by the [n]-th spawn, [fetch n url] the end of the [n]-th GET;
    the path, URI and encoding functions are Node's and the editor's. *)
Record Platform : Type := mkPlatform {
  helper : nat -> list string -> ProcResult;
  fetch : nat -> string -> Transfer;
  JSON_parse : string -> WindowsParse.Parsed;
  globalStoragePath : string;
  winKlangPath : string;
  path_join : string -> string -> string;
  path_basename : string -> string;
  path_extname : string -> string;
  uri_file : string -> string;
  uri_resource : string -> string;
  base64 : string -> string
}.

(** The state of the world the services act on: every child started and
    every message box shown, oldest first; the disk; every GET issued and
    every file copy made, oldest first; the clock. *)
Record Host : Type := mkHost {
  spawned : list (list string);
  shown : list Notice;
  disk : gmap string Entry;
  requests : list string;
  copies : list (string * string);
  now : Z
}.

(** Network transfers and file copies made so far. *)
Definition transfers (h : Host) : nat := (length (requests h) + length (copies h))%nat.

Definition Run (A : Type) : Type := Host -> A * Host.

Definition ret {A : Type} (a : A) : Run A := fun h => (a, h).

Definition bind {A B : Type} (m : Run A) (k : A -> Run B) : Run B :=
  fun h => let '(a, h') := m h in k a h'.

Notation "x <- m ;; k" := (bind m (fun x => k))
  (at level 100, m at next level, right associativity, only parsing).

(** The host after one more child was started. *)
Definition started (argv : list string) (h : Host) : Host :=
  mkHost (spawned h ++ [argv]) (shown h) (disk h) (requests h) (copies h) (now h).

(** The host after one more message box was shown. *)
Definition notified (n : Notice) (h : Host) : Host :=
  mkHost (spawned h) (shown h ++ [n]) (disk h) (requests h) (copies h) (now h).

Section World.
Context (P : Platform).

Definition spawn (argv : list string) : Run ProcResult := fun h =>
  (helper P (length (spawned h)) argv, started argv h).

Definition showMessage (n : Notice) : Run unit := fun h => (tt, notified n h).

Definition existsSync (path : string) : Run bool := fun h =>
  (bool_decide (is_Some (disk h !! path)), h).

Definition writeEntry (path : string) (e : Entry) : Run unit := fun h =>
  (tt, mkHost (spawned h) (shown h) (<[path := e]> (disk h)) (requests h) (copies h) (now h)).

(** [fs.mkdirSync(dir, { recursive: true })] *)
Definition mkdirSync (dir : string) : Run unit := writeEntry dir Directory.

(** [fs.copyFileSync(src, dst)]: [false] when it throws, which it does
    unless the source is a file. *)
Definition copyFileSync (src dst : string) : Run bool := fun h =>
  match disk h !! src with
  | Some (File w) =>
      (true, mkHost (spawned h) (shown h) (<[dst := File w]> (disk h))
                    (requests h) (copies h ++ [(src, dst)]) (now h))
  | _ => (false, h)
  end.

(** [protocol.get(url, ...)]: the request goes out.  The locator is taken
    to be one that [get] accepts: for a string that is no URL of the
    module's protocol [get] throws before anything is sent, and that case
    is left out of the embedding. *)
Definition httpGet (url : string) : Run Transfer := fun h =>
  (fetch P (length (requests h)) url,
   mkHost (spawned h) (shown h) (disk h) (requests h ++ [url]) (copies h) (now h)).

Definition Date_now : Run Z := fun h => (now h, h).

End World.

(** [code === 0] *)
Definition isZero (code : option Z) : bool :=
  match code with
  | Some z => z =? 0
  | None => false
  end.

(** [`${code}`] for an exit code. *)
Definition showCode (code : option Z) : string :=
  match code with
  | Some z => JS.showZ z
  | None => "null"
  end.

(* ===================================================================== *)
(** * src/linux/musicService.ts *)
(* ===================================================================== *)

Module Linux.

Record Service : Type := mkService {
  isPlayerctlAvailable : bool;
  currentTrack : option TrackInfo;
  artworkCache : gmap string string
}.

Definition notAvailable : string :=
  "playerctl is not available. Please install it to control music playback.".

Definition format : string :=
  "{{title}}|||{{mpris:artUrl}}|||{{artist}}|||{{album}}|||{{duration(position)}}|||{{duration(mpris:length)}}|||{{status}}|||{{playerName}}".

Section Methods.
Context (P : Platform).

Definition checkPlayerctlAvailability (this : Service) : Run Service :=
  r <- spawn P ["playerctl"; "--version"];;
  ret (mkService
          match r with
          | Exited code _ _ => isZero code
          | SpawnFailed _ => false
          end
          (currentTrack this) (artworkCache this)).

Definition getCurrentTrack (this : Service) : Run (option TrackInfo) :=
  if negb (isPlayerctlAvailable this) then ret None
  else
    r <- spawn P ["playerctl"; "metadata"; "--format"; format];;
    ret match r with
         | Exited code output _ =>
             if isZero code && negb (String.eqb (JS.trim output) "")
             then LinuxParse.parseOutput output
             else None
         | SpawnFailed _ => None
         end.

(** [downloadFile]; http and https differ only in the module used. *)
Definition downloadFile (url filePath : string) : Run (Settled unit) :=
  t <- httpGet P url;;
  match t with
  | Response statusCode body =>
      if statusCode =? 200 then
        _ <- writeEntry filePath (File false);;
        match body with
        | Complete => _ <- writeEntry filePath (File true);; ret (Fulfilled tt)
        | SocketError => ret (Rejected "socket error")
        | Stalled => ret Pending
        end
      else ret (Rejected ("HTTP " +:+ JS.showZ statusCode))
  | RequestError => ret (Rejected "request error")
  end.

(** [path.join(this.extensionContext.globalStorageUri.fsPath, 'uploads')] *)
Definition uploadsDir : string := path_join P (globalStoragePath P) "uploads".

(** [if (!fs.existsSync(uploadsDir)) fs.mkdirSync(uploadsDir, ...)] *)
Definition ensureUploadsDir : Run unit :=
  e <- existsSync uploadsDir;;
  if negb e then mkdirSync uploadsDir else ret tt.

(** [this.artworkCache.set(k, v)] *)
Definition cacheSet (this : Service) (k v : string) : Service :=
  mkService (isPlayerctlAvailable this) (currentTrack this)
            (<[k := v]> (artworkCache this)).

(** [downloadArtwork]: every throw inside the [try] ends in the
    [catch], which returns null. *)
Definition downloadArtwork (this : Service) (artworkUrl : string)
  : Run (Settled (option string) * Service) :=
  if String.eqb artworkUrl "" then ret (Fulfilled None, this)
  else
    match artworkCache this !! artworkUrl with
    | Some cached => ret (Fulfilled (Some cached), this)
    | None =>
        if JS.startsWith artworkUrl "file://" then
          let filePath := JS.replace artworkUrl "file://" "" in
          e <- existsSync filePath;;
          if e then
            _ <- ensureUploadsDir;;
            let fileName := path_basename P filePath in
            let targetPath := path_join P uploadsDir fileName in
            copied <- copyFileSync filePath targetPath;;
            if copied then
              let webviewUri := uri_resource P targetPath in
              ret (Fulfilled (Some webviewUri), cacheSet this artworkUrl webviewUri)
            else ret (Fulfilled None, this)
          else ret (Fulfilled None, this)
        else if JS.startsWith artworkUrl "http" then
          _ <- ensureUploadsDir;;
          t <- Date_now;;
          let fileName := "artwork_" +:+ JS.showZ t +:+ ".jpg" in
          let filePath := path_join P uploadsDir fileName in
          d <- downloadFile artworkUrl filePath;;
          match d with
          | Fulfilled _ =>
              let webviewUri := uri_resource P filePath in
              ret (Fulfilled (Some webviewUri), cacheSet this artworkUrl webviewUri)
          | Rejected _ => ret (Fulfilled None, this)
          | Pending => ret (Pending, this)
          end
        else ret (Fulfilled None, this)
    end.

Definition playPause (this : Service) : Run (Settled unit) :=
  if negb (isPlayerctlAvailable this) then
    _ <- showMessage (Warning notAvailable);; ret (Fulfilled tt)
  else
    r <- spawn P ["playerctl"; "play-pause"];;
    ret match r with
         | Exited code _ _ =>
             if isZero code then Fulfilled tt
             else Rejected ("playerctl play-pause failed with code " +:+ showCode code)
         | SpawnFailed _ => Pending
         end.

Definition next (this : Service) : Run (Settled unit) :=
  if negb (isPlayerctlAvailable this) then
    _ <- showMessage (Warning notAvailable);; ret (Fulfilled tt)
  else
    r <- spawn P ["playerctl"; "next"];;
    ret match r with
         | Exited code _ _ =>
             if isZero code then Fulfilled tt
             else Rejected ("playerctl next failed with code " +:+ showCode code)
         | SpawnFailed _ => Pending
         end.

Definition previous (this : Service) : Run (Settled unit) :=
  if negb (isPlayerctlAvailable this) then
    _ <- showMessage (Warning notAvailable);; ret (Fulfilled tt)
  else
    r <- spawn P ["playerctl"; "previous"];;
    ret match r with
         | Exited code _ _ =>
             if isZero code then Fulfilled tt
             else Rejected ("playerctl previous failed with code " +:+ showCode code)
         | SpawnFailed _ => Pending
         end.

End Methods.

End Linux.

(* ===================================================================== *)
(** * src/windows/musicService.ts *)
(* ===================================================================== *)

Module Windows.

Record Service : Type := mkService {
  isWinKlangAvailable : bool;
  currentTrack : option TrackInfo;
  artworkCache : gmap string string
}.

Definition notAvailable : string :=
  "WinKlang is not available. Please ensure WinKlang.exe is present to control music playback.".

Section Methods.
Context (P : Platform).

Definition checkWinKlangAvailability (this : Service) : Run Service :=
  e <- existsSync (winKlangPath P);;
  if negb e then ret (mkService false (currentTrack this) (artworkCache this))
  else
    r <- spawn P [winKlangPath P; "--json"];;
    ret (mkService
           match r with
           | Exited code _ _ => isZero code
           | SpawnFailed _ => false
           end
           (currentTrack this) (artworkCache this)).

Definition getCurrentTrack (this : Service) : Run (option TrackInfo) :=
  if negb (isWinKlangAvailable this) then ret None
  else
    r <- spawn P [winKlangPath P; "--json"];;
    ret match r with
        | Exited code output _ =>
            if isZero code && negb (String.eqb (JS.trim output) "")
            then WindowsParse.normalize (JSON_parse P (JS.trim output))
            else None
        | SpawnFailed _ => None
        end.

Definition playPause (this : Service) : Run (Settled unit) :=
  if negb (isWinKlangAvailable this) then
    _ <- showMessage (Warning notAvailable);; ret (Fulfilled tt)
  else
    r <- spawn P [winKlangPath P; "--play-pause"];;
    ret match r with
        | Exited code _ _ =>
            if isZero code then Fulfilled tt
            else Rejected ("WinKlang play-pause failed with code " +:+ showCode code)
        | SpawnFailed message => Rejected ("WinKlang play-pause error: " +:+ message)
        end.

Definition next (this : Service) : Run (Settled unit) :=
  if negb (isWinKlangAvailable this) then
    _ <- showMessage (Warning notAvailable);; ret (Fulfilled tt)
  else
    r <- spawn P [winKlangPath P; "--next"];;
    match r with
    | Exited code _ errorOutput =>
        if isZero code then ret (Fulfilled tt)
        else if JS.includes errorOutput "not available" then
          _ <- showMessage
                 (Information
                    "Next track control is not available for the current media player.");;
          ret (Fulfilled tt)
        else ret (Rejected ("WinKlang next failed with code " +:+ showCode code
                            +:+ ": " +:+ errorOutput))
    | SpawnFailed message => ret (Rejected ("WinKlang next error: " +:+ message))
    end.

Definition previous (this : Service) : Run (Settled unit) :=
  if negb (isWinKlangAvailable this) then
    _ <- showMessage (Warning notAvailable);; ret (Fulfilled tt)
  else
    r <- spawn P [winKlangPath P; "--prev"];;
    match r with
    | Exited code _ errorOutput =>
        if isZero code then ret (Fulfilled tt)
        else if JS.includes errorOutput "not available" then
          _ <- showMessage
                 (Information
                    "Previous track control is not available for the current media player.");;
          ret (Fulfilled tt)
        else ret (Rejected ("WinKlang previous failed with code " +:+ showCode code
                            +:+ ": " +:+ errorOutput))
    | SpawnFailed message => ret (Rejected ("WinKlang previous error: " +:+ message))
    end.

(** [getPosition]: [track?.position || null]. *)
Definition getPosition (this : Service) : Run (option JS.number) :=
  if negb (isWinKlangAvailable this) then ret None
  else
    track <- getCurrentTrack this;;
    ret (JS.orNull (match track with
                    | Some t => position t
                    | None => None
                    end)).

End Methods.

End Windows.

(* ===================================================================== *)
(** * src/windows/utils/artworkUtil.ts *)
(* ===================================================================== *)

Module ArtworkUtil.

(** The static fields of the class; [extensionContext] records whether
    [initialize] has run. *)
Record Util : Type := mkUtil {
  artworkCache : gmap string string;
  extensionContext : bool
}.

(** [initialize] *)
Definition initialize (this : Util) : Util := mkUtil (artworkCache this) true.

(** [this.artworkCache.set(k, v)] *)
Definition cacheSet (this : Util) (k v : string) : Util :=
  mkUtil (<[k := v]> (artworkCache this)) (extensionContext this).

(** [.replace(/[/+=]/g, '_')] *)
Fixpoint sanitize (s : string) : string :=
  match s with
  | EmptyString => EmptyString
  | String c s' =>
      String (if Ascii.eqb c "/" || Ascii.eqb c "+" || Ascii.eqb c "=" then "_"%char else c)
             (sanitize s')
  end.

Section Methods.
Context (P : Platform).

Definition getArtworkDirectory : Run string :=
  let artworkDir := path_join P (globalStoragePath P) "artwork" in
  e <- existsSync artworkDir;;
  _ <- (if negb e then mkdirSync artworkDir else ret tt);;
  ret artworkDir.

(** [handleFileUrl]; a throw of [copyFileSync] rejects the promise. *)
Definition handleFileUrl (this : Util) (artUrl : string)
  : Run (Settled (option string) * Util) :=
  let sourcePath := JS.replace artUrl "file://" "" in
  e <- existsSync sourcePath;;
  if negb e then ret (Fulfilled None, this)
  else
    artworkDir <- getArtworkDirectory;;
    let pathHash := sanitize (base64 P sourcePath) in
    let extension := JS.orElse (path_extname P sourcePath) ".jpg" in
    let filename := "artwork_" +:+ pathHash +:+ extension in
    let localPath := path_join P artworkDir filename in
    present <- existsSync localPath;;
    copied <- (if negb present then copyFileSync sourcePath localPath else ret true);;
    if copied then
      let vscodeUri := uri_file P localPath in
      ret (Fulfilled (Some vscodeUri), cacheSet this artUrl vscodeUri)
    else ret (Rejected "copyFileSync", this).

(** [handleHttpUrl]; the promise has no reject path. *)
Definition handleHttpUrl (this : Util) (artUrl : string)
  : Run (Settled (option string) * Util) :=
  artworkDir <- getArtworkDirectory;;
  let urlHash := sanitize (base64 P artUrl) in
  let filename := "artwork_" +:+ urlHash +:+ ".jpg" in
  let localPath := path_join P artworkDir filename in
  e <- existsSync localPath;;
  if e then
    let vscodeUri := uri_file P localPath in
    ret (Fulfilled (Some vscodeUri), cacheSet this artUrl vscodeUri)
  else
    t <- httpGet P artUrl;;
    match t with
    | Response statusCode body =>
        if statusCode =? 200 then
          _ <- writeEntry localPath (File false);;
          match body with
          | Complete =>
              _ <- writeEntry localPath (File true);;
              let vscodeUri := uri_file P localPath in
              ret (Fulfilled (Some vscodeUri), cacheSet this artUrl vscodeUri)
          | SocketError => ret (Fulfilled None, this)
          | Stalled => ret (Pending, this)
          end
        else ret (Fulfilled None, this)
    | RequestError => ret (Fulfilled None, this)
    end.

(** [downloadArtwork]; the two handlers are returned without [await],
    so their outcome is the outcome of the call. *)
Definition downloadArtwork (this : Util) (artUrl : string)
  : Run (Settled (option string) * Util) :=
  if String.eqb artUrl "" || negb (extensionContext this) then ret (Fulfilled None, this)
  else
    match artworkCache this !! artUrl with
    | Some cached => ret (Fulfilled (Some cached), this)
    | None =>
        if JS.startsWith artUrl "file://" then handleFileUrl this artUrl
        else if JS.startsWith artUrl "http://" || JS.startsWith artUrl "https://"
             then handleHttpUrl this artUrl
             else ret (Fulfilled None, this)
    end.

End Methods.

End ArtworkUtil.

(* ===================================================================== *)
(** * The polling loops and the rest of the two services *)
(* ===================================================================== *)

(** [track.artUrl = artworkPath] *)
Definition withArtUrl (t : TrackInfo) (artworkPath : string) : TrackInfo :=
  mkTrackInfo (title t) artworkPath (artist t) (album t) (duration t) (position t)
              (status t) (player t).

Module LinuxPolling.

(** [dispose]: the timer is stopped and the artwork cache is cleared. *)
Definition dispose (this : Linux.Service) : Linux.Service :=
  Linux.mkService (Linux.isPlayerctlAvailable this) (Linux.currentTrack this) ∅.

Section Methods.
Context (P : Platform).

(** One run of the callback that [startPolling] hands to [setInterval].
    The list is what [onTrackChangedCallback] is called with, in order.
    [this.currentTrack] and [track] are one object, so the rewrite of
    [track.artUrl] shows in the service as well.  A rejection inside the
    [try] ends in the [catch], which clears the track that was just stored
    and reports null; a promise that never settles leaves the run
    unfinished after the track was stored.  The run is followed on its
    own, from the moment its sample arrives: the timer can start another
    run while this one waits for its artwork, and what that run stores in
    between is not part of this definition. *)
Definition pollOnce (this : Linux.Service)
  : Run (Settled (list (option TrackInfo)) * Linux.Service) :=
  track <- Linux.getCurrentTrack P this;;
  if hasTrackChanged (Linux.currentTrack this) track then
    let stored :=
      Linux.mkService (Linux.isPlayerctlAvailable this) track (Linux.artworkCache this) in
    match track with
    | Some t =>
        if negb (String.eqb (artUrl t) "") then
          r <- Linux.downloadArtwork P stored (artUrl t);;
          let '(outcome, this2) := r in
          match outcome with
          | Fulfilled artworkPath =>
              let t' :=
                match artworkPath with
                | Some p => if String.eqb p "" then t else withArtUrl t p
                | None => t
                end in
              ret (Fulfilled [Some t'],
                   Linux.mkService (Linux.isPlayerctlAvailable this2) (Some t')
                                   (Linux.artworkCache this2))
          | Rejected _ =>
              ret (Fulfilled [None],
                   Linux.mkService (Linux.isPlayerctlAvailable this2) None
                                   (Linux.artworkCache this2))
          | Pending => ret (Pending, this2)
          end
        else ret (Fulfilled [Some t], stored)
    | None => ret (Fulfilled [None], stored)
    end
  else ret (Fulfilled [], this).

End Methods.

End LinuxPolling.

Module WindowsPolling.

(** [dispose] *)
Definition dispose (this : Windows.Service) : Windows.Service :=
  Windows.mkService (Windows.isWinKlangAvailable this) (Windows.currentTrack this) ∅.

Section Methods.
Context (P : Platform).

(** [downloadFile], the text of the Linux service. *)
Definition downloadFile (url filePath : string) : Run (Settled unit) :=
  t <- httpGet P url;;
  match t with
  | Response statusCode body =>
      if statusCode =? 200 then
        _ <- writeEntry filePath (File false);;
        match body with
        | Complete => _ <- writeEntry filePath (File true);; ret (Fulfilled tt)
        | SocketError => ret (Rejected "socket error")
        | Stalled => ret Pending
        end
      else ret (Rejected ("HTTP " +:+ JS.showZ statusCode))
  | RequestError => ret (Rejected "request error")
  end.

(** [path.join(this.extensionContext.globalStorageUri.fsPath, 'uploads')] *)
Definition uploadsDir : string := path_join P (globalStoragePath P) "uploads".

(** [if (!fs.existsSync(uploadsDir)) fs.mkdirSync(uploadsDir, ...)] *)
Definition ensureUploadsDir : Run unit :=
  e <- existsSync uploadsDir;;
  if negb e then mkdirSync uploadsDir else ret tt.

(** [this.artworkCache.set(k, v)] *)
Definition cacheSet (this : Windows.Service) (k v : string) : Windows.Service :=
  Windows.mkService (Windows.isWinKlangAvailable this) (Windows.currentTrack this)
                    (<[k := v]> (Windows.artworkCache this)).

(** [downloadArtwork], the text of the Linux service. *)
Definition downloadArtwork (this : Windows.Service) (artworkUrl : string)
  : Run (Settled (option string) * Windows.Service) :=
  if String.eqb artworkUrl "" then ret (Fulfilled None, this)
  else
    match Windows.artworkCache this !! artworkUrl with
    | Some cached => ret (Fulfilled (Some cached), this)
    | None =>
        if JS.startsWith artworkUrl "file://" then
          let filePath := JS.replace artworkUrl "file://" "" in
          e <- existsSync filePath;;
          if e then
            _ <- ensureUploadsDir;;
            let fileName := path_basename P filePath in
            let targetPath := path_join P uploadsDir fileName in
            copied <- copyFileSync filePath targetPath;;
            if copied then
              let webviewUri := uri_resource P targetPath in
              ret (Fulfilled (Some webviewUri), cacheSet this artworkUrl webviewUri)
            else ret (Fulfilled None, this)
          else ret (Fulfilled None, this)
        else if JS.startsWith artworkUrl "http" then
          _ <- ensureUploadsDir;;
          t <- Date_now;;
          let fileName := "artwork_" +:+ JS.showZ t +:+ ".jpg" in
          let filePath := path_join P uploadsDir fileName in
          d <- downloadFile artworkUrl filePath;;
          match d with
          | Fulfilled _ =>
              let webviewUri := uri_resource P filePath in
              ret (Fulfilled (Some webviewUri), cacheSet this artworkUrl webviewUri)
          | Rejected _ => ret (Fulfilled None, this)
          | Pending => ret (Pending, this)
          end
        else ret (Fulfilled None, this)
    end.

(** One run of the callback of [startPolling]; see [LinuxPolling.pollOnce]. *)
Definition pollOnce (this : Windows.Service)
  : Run (Settled (list (option TrackInfo)) * Windows.Service) :=
  track <- Windows.getCurrentTrack P this;;
  if hasTrackChanged (Windows.currentTrack this) track then
    let stored :=
      Windows.mkService (Windows.isWinKlangAvailable this) track
                        (Windows.artworkCache this) in
    match track with
    | Some t =>
        if negb (String.eqb (artUrl t) "") then
          r <- downloadArtwork stored (artUrl t);;
          let '(outcome, this2) := r in
          match outcome with
          | Fulfilled artworkPath =>
              let t' :=
                match artworkPath with
                | Some p => if String.eqb p "" then t else withArtUrl t p
                | None => t
                end in
              ret (Fulfilled [Some t'],
                   Windows.mkService (Windows.isWinKlangAvailable this2) (Some t')
                                     (Windows.artworkCache this2))
          | Rejected _ =>
              ret (Fulfilled [None],
                   Windows.mkService (Windows.isWinKlangAvailable this2) None
                                     (Windows.artworkCache this2))
          | Pending => ret (Pending, this2)
          end
        else ret (Fulfilled [Some t], stored)
    | None => ret (Fulfilled [None], stored)
    end
  else ret (Fulfilled [], this).

End Methods.

End WindowsPolling.

(* ===================================================================== *)
(** * src/windows/utils/artworkUtil.ts, the cache accessors *)
(* ===================================================================== *)

Module ArtworkCache.

(** [clearCache] *)
Definition clearCache (this : ArtworkUtil.Util) : ArtworkUtil.Util :=
  ArtworkUtil.mkUtil ∅ (ArtworkUtil.extensionContext this).

(** [getCachedArtwork]: [this.artworkCache.get(artUrl) || null]. *)
Definition getCachedArtwork (this : ArtworkUtil.Util) (artUrl : string) : option string :=
  match ArtworkUtil.artworkCache this !! artUrl with
  | Some v => if String.eqb v "" then None else Some v
  | None => None
  end.

End ArtworkCache.

(* ===================================================================== *)
(** * src/windows/index.ts *)
(* ===================================================================== *)

Module WindowsController.

Record Controller : Type := mkController {
  musicService : Windows.Service;
  artworkCache : gmap string string
}.

(** [this.artworkCache.set(k, v)] *)
Definition cacheSet (this : Controller) (k v : string) : Controller :=
  mkController (musicService this) (<[k := v]> (artworkCache this)).

(** [isAvailable] *)
Definition isAvailable (this : Controller) : bool :=
  Windows.isWinKlangAvailable (musicService this).

Section Methods.
Context (P : Platform).
(** [webview.asWebviewUri(vscode.Uri.file(p)).toString()] *)
Context (asWebviewUri : string -> string).

Definition getCurrentTrack (this : Controller) : Run (option TrackInfo) :=
  Windows.getCurrentTrack P (musicService this).

Definition getPosition (this : Controller) : Run (option JS.number) :=
  Windows.getPosition P (musicService this).

Definition playPause (this : Controller) : Run (Settled unit) :=
  Windows.playPause P (musicService this).

Definition next (this : Controller) : Run (Settled unit) :=
  Windows.next P (musicService this).

Definition previous (this : Controller) : Run (Settled unit) :=
  Windows.previous P (musicService this).

(** [path.join(this.context.globalStorageUri.fsPath, 'artwork')], created
    when it is missing. *)
Definition artworkDirectory : Run string :=
  let artworkDir := path_join P (globalStoragePath P) "artwork" in
  e <- existsSync artworkDir;;
  _ <- (if negb e then mkdirSync artworkDir else ret tt);;
  ret artworkDir.

(** [downloadArtwork]: the whole body is inside one [try], so a throw of
    [copyFileSync] ends in the [catch] and the answer is null; the promise
    of the download has no reject path. *)
Definition downloadArtwork (this : Controller) (artUrl : string)
  : Run (Settled (option string) * Controller) :=
  match artworkCache this !! artUrl with
  | Some cached => ret (Fulfilled (Some cached), this)
  | None =>
      if JS.startsWith artUrl "file://" then
        let sourcePath := JS.replace artUrl "file://" "" in
        e <- existsSync sourcePath;;
        if negb e then ret (Fulfilled None, this)
        else
          artworkDir <- artworkDirectory;;
          let pathHash := ArtworkUtil.sanitize (base64 P sourcePath) in
          let extension := JS.orElse (path_extname P sourcePath) ".jpg" in
          let filename := "artwork_" +:+ pathHash +:+ extension in
          let localPath := path_join P artworkDir filename in
          present <- existsSync localPath;;
          copied <- (if negb present then copyFileSync sourcePath localPath else ret true);;
          if copied then ret (Fulfilled (Some localPath), cacheSet this artUrl localPath)
          else ret (Fulfilled None, this)
      else if negb (JS.startsWith artUrl "http://") && negb (JS.startsWith artUrl "https://")
      then ret (Fulfilled None, this)
      else
        artworkDir <- artworkDirectory;;
        let urlHash := ArtworkUtil.sanitize (base64 P artUrl) in
        let filename := "artwork_" +:+ urlHash +:+ ".jpg" in
        let localPath := path_join P artworkDir filename in
        e <- existsSync localPath;;
        if e then ret (Fulfilled (Some localPath), cacheSet this artUrl localPath)
        else
          t <- httpGet P artUrl;;
          match t with
          | Response statusCode body =>
              if statusCode =? 200 then
                _ <- writeEntry localPath (File false);;
                match body with
                | Complete =>
                    _ <- writeEntry localPath (File true);;
                    ret (Fulfilled (Some localPath), cacheSet this artUrl localPath)
                | SocketError => ret (Fulfilled None, this)
                | Stalled => ret (Pending, this)
                end
              else ret (Fulfilled None, this)
          | RequestError => ret (Fulfilled None, this)
          end
  end.

(** [getArtworkUri] *)
Definition getArtworkUri (this : Controller) (artUrl : string)
  : Run (Settled string * Controller) :=
  if String.eqb artUrl "" then ret (Fulfilled "", this)
  else
    r <- downloadArtwork this artUrl;;
    let '(outcome, this1) := r in
    match outcome with
    | Fulfilled (Some localPath) =>
        if String.eqb localPath "" then ret (Fulfilled "", this1)
        else ret (Fulfilled (asWebviewUri localPath), this1)
    | Fulfilled None => ret (Fulfilled "", this1)
    | Rejected _ => ret (Fulfilled "", this1)
    | Pending => ret (Pending, this1)
    end.

End Methods.

End WindowsController.

(* ===================================================================== *)
(** * src/common/ui/musicWebviewProvider.ts, on the Windows controller *)
(* ===================================================================== *)

Module Webview.

(** What [postMessage] is given: [{ command: 'updateTrack', track: null }]
    or the message with a track. *)
Inductive Message : Type :=
| NoTrack
| UpdateTrack (track : TrackInfo) (artworkUri : string) (position : Z)
              (showProgressBar : bool).

(** What [handleWebviewMessage] leaves behind besides the controller's own
    effects: messages posted at once, a refresh set for 100 ms later, an
    error box. *)
Inductive Effect : Type :=
| Posted (m : Message)
| RefreshLater
| ErrorBox (message : string).

Section Methods.
Context (P : Platform).
Context (asWebviewUri : string -> string).
(** [this._view] is set and visible; the setting [music.showProgressBar]. *)
Context (visible showProgressBar : bool).

(** [updateWebview] *)
Definition updateWebview (this : WindowsController.Controller)
  : Run (Settled (list Message) * WindowsController.Controller) :=
  if negb visible then ret (Fulfilled [], this)
  else
    trackInfo <- WindowsController.getCurrentTrack P this;;
    currentPosition <- WindowsController.getPosition P this;;
    match trackInfo with
    | None => ret (Fulfilled [NoTrack], this)
    | Some track =>
        if String.eqb (title track) "" then ret (Fulfilled [NoTrack], this)
        else
          r <- WindowsController.getArtworkUri P asWebviewUri this (JS.orElse (artUrl track) "");;
          let '(outcome, this1) := r in
          match outcome with
          | Fulfilled artworkUri =>
              ret (Fulfilled [UpdateTrack track artworkUri (JS.orZero currentPosition)
                                          showProgressBar],
                   this1)
          | Rejected _ => ret (Fulfilled [NoTrack], this1)
          | Pending => ret (Pending, this1)
          end
    end.

(** [`Music control error: ${error}`] for [new Error(message)]. *)
Definition controlError (message : string) : string :=
  if String.eqb message "" then "Music control error: Error"
  else "Music control error: Error: " +:+ message.

(** The control branches of [handleWebviewMessage]: after the awaited
    call a refresh is set; an error thrown by the controller ends in the
    [catch]. *)
Definition afterControl (outcome : Settled unit) : Settled (list Effect) :=
  match outcome with
  | Fulfilled _ => Fulfilled [RefreshLater]
  | Rejected message => Fulfilled [ErrorBox (controlError message)]
  | Pending => Pending
  end.

(** [handleWebviewMessage], by [message.command]. *)
Definition handleWebviewMessage (this : WindowsController.Controller) (command : string)
  : Run (Settled (list Effect) * WindowsController.Controller) :=
  if String.eqb command "webviewReady" then
    r <- updateWebview this;;
    let '(outcome, this1) := r in
    ret (match outcome with
         | Fulfilled ms => Fulfilled (map Posted ms)
         | Rejected message => Fulfilled [ErrorBox (controlError message)]
         | Pending => Pending
         end, this1)
  else if String.eqb command "playPause" then
    o <- WindowsController.playPause P this;; ret (afterControl o, this)
  else if String.eqb command "next" then
    o <- WindowsController.next P this;; ret (afterControl o, this)
  else if String.eqb command "previous" then
    o <- WindowsController.previous P this;; ret (afterControl o, this)
  else ret (Fulfilled [], this).

End Methods.

End Webview.

(* ===================================================================== *)
(** * Vocabulary of the statements *)
(* ===================================================================== *)

(** Occurrences of a code unit in a string. *)
Fixpoint countChar (c : ascii) (s : string) : nat :=
  match s with
  | EmptyString => O
  | String x s' => ((if Ascii.eqb x c then 1 else 0) + countChar c s')%nat
  end.

(** A time string is malformed when it does not split on the colon into
    two segments, or when one of the two segments does not start with an
    integer. *)
Definition malformed (s : string) : Prop :=
  match JS.split s ":" with
  | [m; sec] => JS.parseInt m 10 = JS.NaN \/ JS.parseInt sec 10 = JS.NaN
  | _ => True
  end.

(** A record with no field missing and no placeholder field empty. *)
Definition filled (t : TrackInfo) : Prop :=
  title t <> "" /\ artist t <> "" /\ album t <> "" /\ status t <> "" /\
  is_Some (position t) /\ is_Some (duration t) /\
  exists p, player t = Some p /\ p <> "".

(** The record the delimited parser builds from the first eight fields. *)
Definition ofFields (parts : list string) : TrackInfo :=
  {| title := JS.orElse (nth 0 parts "") "Unknown Title";
     artUrl := JS.orElse (nth 1 parts "") "";
     artist := JS.orElse (nth 2 parts "") "Unknown Artist";
     album := JS.orElse (nth 3 parts "") "Unknown Album";
     position := Some (LinuxParse.parseDuration (nth 4 parts ""));
     duration := Some (LinuxParse.parseDuration (nth 5 parts ""));
     status := JS.orElse (JS.toLowerCase (nth 6 parts "")) "stopped";
     player := Some (JS.orElse (nth 7 parts "") "Unknown Player") |}.

(** Status normalization as the specification words it: a substring match
    on the lower-cased word, "play" first, then "pause", else stopped. *)
Definition specStatus (raw : string) : string :=
  if JS.includes (JS.toLowerCase raw) "play" then "playing"
  else if JS.includes (JS.toLowerCase raw) "pause" then "paused"
  else "stopped".

(** A platform for the examples: POSIX-like paths and plain URI
    prefixes, with the helper, the network and the JSON reader given. *)
Definition stubPlatform (helper : nat -> list string -> ProcResult)
    (fetch : nat -> string -> Transfer) (parse : string -> WindowsParse.Parsed)
  : Platform :=
  {| helper := helper;
     fetch := fetch;
     JSON_parse := parse;
     globalStoragePath := "/storage";
     winKlangPath := "/ext/dist/src/windows/WinKlang.exe";
     path_join := fun a b => a +:+ "/" +:+ b;
     path_basename := fun p => p;
     path_extname := fun _ => "";
     uri_file := fun p => "file://" +:+ p;
     uri_resource := fun p => "vscode-resource://" +:+ p;
     base64 := fun s => s |}.

(** A host on which nothing has happened yet. *)
Definition freshHost : Host := mkHost [] [] ∅ [] [] 0.

(** A platform whose helper always ends the same way. *)
Definition helperEnds (r : ProcResult) (parse : string -> WindowsParse.Parsed) : Platform :=
  stubPlatform (fun _ _ => r) (fun _ _ => RequestError) parse.

(** A line of playerctl with eight fields, and one with a ninth. *)
Definition eightFields : string :=
  "Song|||file:///tmp/a.png|||Band|||Album|||1:05|||3:20|||Playing|||vlc".

Definition nineFields : string :=
  "Song|||file:///tmp/a.png|||Band|||Album|||1:05|||3:20|||Playing|||vlc|||extra".

(** A JSON reader that answers a track at position "00:00". *)
Definition atStart (_ : string) : WindowsParse.Parsed :=
  WindowsParse.ParsedData
    (WindowsParse.mkWinKlangData (Some "Song") None (Some "Band") None
                                 (Some "00:00") (Some "03:20") (Some "Playing")).

(** A network on which the first GET is answered 404 and the others 200
    with a whole body. *)
Definition flaky (n : nat) (_ : string) : Transfer :=
  if (n =? 0)%nat then Response 404 Complete else Response 200 Complete.

(** [pieces.join(sep)] *)
Fixpoint join (sep : string) (pieces : list string) : string :=
  match pieces with
  | [] => ""
  | [x] => x
  | x :: rest => x +:+ sep +:+ join sep rest
  end.

(** Every code unit of the string is white space. *)
Fixpoint allWhiteSpace (s : string) : bool :=
  match s with
  | EmptyString => true
  | String c s' => JS.isWhiteSpace c && allWhiteSpace s'
  end.

(** A JSON reader that answers a track 65 seconds into a song with a
    remote cover. *)
Definition midSong (_ : string) : WindowsParse.Parsed :=
  WindowsParse.ParsedData
    (WindowsParse.mkWinKlangData (Some "Song") (Some "http://host/cover.jpg") (Some "Band")
                                 (Some "Album") (Some "01:05") (Some "03:20")
                                 (Some "Playing")).

(** A network on which the first GET is answered 200 with a whole body
    and every later request fails. *)
Definition onceOnly (n : nat) (_ : string) : Transfer :=
  if (n =? 0)%nat then Response 200 Complete else RequestError.

(** A string of [n] digits 9, for the examples. *)
Fixpoint nines (n : nat) : string :=
  match n with
  | O => ""
  | S k => String "9" (nines k)
  end.

(** The form a webview gives to a local path, for the examples. *)
Definition webviewForm (path : string) : string :=
  "https://file+.vscode-resource.vscode-cdn.net" +:+ path.

(* ===================================================================== *)
(** * The primitives, on samples and in general *)
(* ===================================================================== *)

Example split_colon : JS.split "02:30" ":" = ["02"; "30"].
Proof. reflexivity. Qed.

Example split_bars : JS.split "a|||b||||c|||" "|||" = ["a"; "b"; "|c"; ""].
Proof. reflexivity. Qed.

Example split_empty : JS.split "" "|||" = [""].
Proof. reflexivity. Qed.

Example parseInt_samples :
  JS.parseInt "02" 10 = JS.Num 2 /\ JS.parseInt " -12px" 10 = JS.Num (-12) /\
  JS.parseInt "" 10 = JS.NaN /\ JS.parseInt "x1" 0 = JS.NaN /\
  JS.parseInt "0x1f" 0 = JS.Num 31 /\ JS.parseInt "0x1f" 10 = JS.Num 0.
Proof. repeat split; reflexivity. Qed.

Example trim_sample : JS.trim "  a b  " = "a b".
Proof. reflexivity. Qed.

Example showZ_samples : JS.showZ 0 = "0" /\ JS.showZ 12 = "12" /\ JS.showZ (-2) = "-2".
Proof. repeat split; reflexivity. Qed.

Lemma orElse_nonempty (s d : string) : d <> "" -> JS.orElse s d <> "".
Proof. intros Hd. destruct s; simpl; [exact Hd | discriminate]. Qed.

Lemma orElse_empty_r (s : string) : JS.orElse s "" = s.
Proof. destruct s; reflexivity. Qed.

Lemma toLowerCase_empty (s : string) : JS.toLowerCase s = "" -> s = "".
Proof. destruct s; simpl; [reflexivity | discriminate]. Qed.

Lemma toLowerCase_idempotent (s : string) :
  JS.toLowerCase (JS.toLowerCase s) = JS.toLowerCase s.
Proof.
  induction s as [|c s IH]; simpl; [reflexivity|].
  rewrite IH. f_equal.
  destruct c as [[] [] [] [] [] [] [] []]; reflexivity.
Qed.

(** The pieces of a split on the colon are one more than the colons. *)
Lemma splitGo_colon_length (s cur : string) :
  length (JS.splitGo ":" s O cur) = S (countChar ":" s).
Proof.
  revert cur. induction s as [|c s IH]; intros cur; [reflexivity|].
  cbn [JS.splitGo JS.isPrefix countChar].
  rewrite (Ascii.eqb_sym c ":").
  destruct (Ascii.eqb ":" c); cbn [andb length String.length Nat.sub Nat.add];
    rewrite IH; reflexivity.
Qed.

Lemma split_colon_length (s : string) :
  length (JS.split s ":") = S (countChar ":" s).
Proof. apply splitGo_colon_length. Qed.

(* ===================================================================== *)
(** * The change predicate *)
(* ===================================================================== *)

(** C1.  The change predicate of the polling loop: unchanged when both
    records are absent, changed when exactly one is, and for two present
    records changed exactly when the titles, the artists or the statuses
    differ or the positions are more than 2 seconds apart (a position that
    is missing or NaN counts as 0, as the code reads it).  In particular
    records that agree on title, artist and status and lie within 2
    seconds are unchanged, whatever their album and artwork. *)
Theorem hasTrackChanged_spec :
  hasTrackChanged None None = false
  /\ (forall t, hasTrackChanged None (Some t) = true
                /\ hasTrackChanged (Some t) None = true)
  /\ (forall a b,
        hasTrackChanged (Some a) (Some b) = true <->
        title a <> title b \/ artist a <> artist b \/ status a <> status b \/
        2 < Z.abs (JS.orZero (position a) - JS.orZero (position b)))
  /\ (forall a b,
        title a = title b -> artist a = artist b -> status a = status b ->
        Z.abs (JS.orZero (position a) - JS.orZero (position b)) <= 2 ->
        hasTrackChanged (Some a) (Some b) = false).
Proof.
  assert (Hiff : forall a b,
            hasTrackChanged (Some a) (Some b) = true <->
            title a <> title b \/ artist a <> artist b \/ status a <> status b \/
            2 < Z.abs (JS.orZero (position a) - JS.orZero (position b))).
  { intros a b. unfold hasTrackChanged.
    rewrite !orb_true_iff, !negb_true_iff, !String.eqb_neq, Z.ltb_lt. tauto. }
  split; [reflexivity|]. split; [intros t; split; reflexivity|].
  split; [exact Hiff|].
  intros a b Ht Ha Hs Hp.
  destruct (hasTrackChanged (Some a) (Some b)) eqn:E; [|reflexivity].
  apply Hiff in E. destruct E as [E|[E|[E|E]]]; try contradiction. lia.
Qed.

(** Two samples of one song a second apart whose album and artwork
    locator differ: no change is reported. *)
Lemma hasTrackChanged_witness :
  hasTrackChanged
    (Some (mkTrackInfo "Song" "http://a/1.jpg" "Band" "Album" (Some (JS.Num 200))
                       (Some (JS.Num 10)) "playing" (Some "vlc")))
    (Some (mkTrackInfo "Song" "http://b/2.jpg" "Band" "Other" (Some (JS.Num 200))
                       (Some (JS.Num 12)) "playing" (Some "vlc")))
  = false.
Proof.
  apply (proj2 (proj2 (proj2 hasTrackChanged_spec)));
    first [reflexivity | simpl; lia].
Defined.

(* ===================================================================== *)
(** * The normalizers *)
(* ===================================================================== *)

(** C2, as stated, fails: the delimited path lower-cases the status word
    and does no substring match, so "Paused (x)" stays "paused (x)". *)
Lemma status_counterexample :
  ~ (forall raw,
       WindowsParse.mapPlaybackStatus raw = specStatus raw
       /\ LinuxParse.statusOf raw = specStatus raw).
Proof.
  intros H. destruct (H "Paused (x)") as [_ HL].
  vm_compute in HL. discriminate HL.
Qed.

(** C2, amended.  On the JSON path the status is normalized by a
    case-insensitive substring match, "play" tested before "pause", every
    other word and the empty word giving stopped.  On the delimited path
    the empty word gives stopped, and the words playing, paused and
    stopped in any letter case give playing, paused and stopped. *)
Theorem status_normalization :
  (forall raw, WindowsParse.mapPlaybackStatus raw = specStatus raw)
  /\ LinuxParse.statusOf "" = "stopped"
  /\ (forall raw word,
        In word ["playing"; "paused"; "stopped"] ->
        JS.toLowerCase raw = word -> LinuxParse.statusOf raw = word).
Proof.
  split; [|split].
  - intros raw. unfold WindowsParse.mapPlaybackStatus, specStatus.
    destruct raw; reflexivity.
  - reflexivity.
  - intros raw word Hin Hlow. unfold LinuxParse.statusOf. rewrite Hlow.
    simpl in Hin. destruct Hin as [<-|[<-|[<-|[]]]]; reflexivity.
Qed.

Example status_samples :
  WindowsParse.mapPlaybackStatus "Playing" = "playing"
  /\ WindowsParse.mapPlaybackStatus "paused (x)" = "paused"
  /\ WindowsParse.mapPlaybackStatus "" = "stopped"
  /\ WindowsParse.mapPlaybackStatus "Stopped" = "stopped"
  /\ WindowsParse.mapPlaybackStatus "Pause/Play" = "playing"
  /\ LinuxParse.statusOf "Paused (x)" = "paused (x)".
Proof. repeat split; reflexivity. Qed.

(** The helper's "Paused" on the delimited path. *)
Lemma status_normalization_witness : LinuxParse.statusOf "Paused" = "paused".
Proof.
  apply (proj2 (proj2 status_normalization) "Paused" "paused");
    [simpl; auto | reflexivity].
Defined.

(** Integers up to 2^53 are doubles, and products and sums that stay in
    that range are exact. *)
Lemma toDouble_exact (z : Z) : Z.abs z <= 2 ^ 53 -> JS.toDouble z = z.
Proof.
  intros Hz. unfold JS.toDouble.
  destruct (Z.abs z <? 2 ^ 53) eqn:E; [reflexivity|].
  apply Z.ltb_ge in E.
  assert (Hcase : z = 2 ^ 53 \/ z = - 2 ^ 53) by lia.
  destruct Hcase as [-> | ->]; vm_compute; reflexivity.
Qed.

Lemma isInfinite_exact (z : Z) : Z.abs z <= 2 ^ 53 -> JS.isInfinite z = false.
Proof.
  intros Hz. unfold JS.isInfinite. apply Z.eqb_neq.
  assert (2 ^ 53 < JS.infinity) by (vm_compute; reflexivity). lia.
Qed.

Lemma sixty_m_plus_n_exact (m n : Z) :
  60 * Z.abs m + Z.abs n <= 2 ^ 53 ->
  JS.add (JS.mul (JS.Num m) (JS.Num 60)) (JS.Num n) = JS.Num (m * 60 + n).
Proof.
  intros H. unfold JS.mul.
  replace (JS.isInfinite 60) with false by (vm_compute; reflexivity).
  replace (60 =? 0) with false by reflexivity.
  rewrite !andb_false_r. cbn [orb].
  rewrite toDouble_exact by lia. unfold JS.add.
  rewrite !isInfinite_exact by lia.
  rewrite toDouble_exact by lia. reflexivity.
Qed.

(** C3, as stated, fails: on the JSON path a segment that is not a number
    counts as 0 and the other segment is kept, so "xx:30" is 30 seconds. *)
Lemma time_counterexample :
  ~ (forall s, malformed s ->
       WindowsParse.parseTimeToSeconds s = JS.Num 0
       /\ LinuxParse.parseDuration s = JS.Num 0).
Proof.
  intros H. destruct (H "xx:30") as [HW _].
  - left. reflexivity.
  - vm_compute in HW. discriminate HW.
Qed.

(** C3, amended.  On both normalizers the empty string and "00:00" are 0
    seconds, "02:30" is 150, and a string that does not hold exactly one
    colon is 0.  A string of two segments whose minutes [m] and seconds
    [n] stay in the range where integers are exact,
    60 * |m| + |n| <= 2^53, is 60 * m + n seconds, a number and not NaN:
    on the JSON path for every such string, a segment that does not start
    with an integer counting as 0; on the delimited path when both
    segments start with an integer. *)
Theorem time_parsing :
  (WindowsParse.parseTimeToSeconds "" = JS.Num 0
   /\ WindowsParse.parseTimeToSeconds "00:00" = JS.Num 0
   /\ WindowsParse.parseTimeToSeconds "02:30" = JS.Num 150)
  /\ (LinuxParse.parseDuration "" = JS.Num 0
      /\ LinuxParse.parseDuration "00:00" = JS.Num 0
      /\ LinuxParse.parseDuration "02:30" = JS.Num 150)
  /\ (forall s, countChar ":" s <> 1%nat ->
        WindowsParse.parseTimeToSeconds s = JS.Num 0
        /\ LinuxParse.parseDuration s = JS.Num 0)
  /\ (forall s a b m n,
        JS.split s ":" = [a; b] ->
        JS.numOrZero (JS.parseInt a 10) = m ->
        JS.numOrZero (JS.parseInt b 10) = n ->
        60 * Z.abs m + Z.abs n <= 2 ^ 53 ->
        WindowsParse.parseTimeToSeconds s = JS.Num (m * 60 + n))
  /\ (forall s a b m n,
        JS.split s ":" = [a; b] ->
        JS.parseInt a 0 = JS.Num m -> JS.parseInt b 0 = JS.Num n ->
        60 * Z.abs m + Z.abs n <= 2 ^ 53 ->
        LinuxParse.parseDuration s = JS.Num (m * 60 + n)).
Proof.
  split; [repeat split; reflexivity|].
  split; [repeat split; reflexivity|].
  split; [|split].
  - intros s Hc.
    assert (Hlen : (length (JS.split s ":") =? 2)%nat = false).
    { apply Nat.eqb_neq. rewrite split_colon_length. lia. }
    unfold WindowsParse.parseTimeToSeconds, LinuxParse.parseDuration.
    rewrite Hlen.
    split; [destruct (_ || _)|destruct (String.eqb s "")]; reflexivity.
  - intros s a b m n Hs <- <- Hr. unfold WindowsParse.parseTimeToSeconds.
    destruct (String.eqb s "") eqn:E0.
    { apply String.eqb_eq in E0. subst s. discriminate Hs. }
    destruct (String.eqb s "00:00") eqn:E1.
    { apply String.eqb_eq in E1. subst s. vm_compute in Hs.
      injection Hs as <- <-. reflexivity. }
    cbn [orb]. rewrite Hs. cbn [length Nat.eqb nth].
    apply sixty_m_plus_n_exact, Hr.
  - intros s a b m n Hs Ha Hb Hr. unfold LinuxParse.parseDuration.
    destruct (String.eqb s "") eqn:E0.
    { apply String.eqb_eq in E0. subst s. discriminate Hs. }
    rewrite Hs. cbn [length Nat.eqb nth]. rewrite Ha, Hb.
    apply sixty_m_plus_n_exact, Hr.
Qed.

(** A time with hours on both paths, and "1:05" on both paths. *)
Lemma time_parsing_witness :
  (WindowsParse.parseTimeToSeconds "1:02:03" = JS.Num 0
   /\ LinuxParse.parseDuration "1:02:03" = JS.Num 0)
  /\ WindowsParse.parseTimeToSeconds "1:05" = JS.Num 65
  /\ LinuxParse.parseDuration "1:05" = JS.Num 65.
Proof.
  destruct time_parsing as (_ & _ & Hcolon & HW & HL).
  split; [apply Hcolon; vm_compute; lia|].
  split.
  - apply (HW "1:05" "1" "05" 1 5); [reflexivity|reflexivity|reflexivity|lia].
  - apply (HL "1:05" "1" "05" 1 5); [reflexivity|reflexivity|reflexivity|lia].
Defined.

(** Outside that range the doubles of the code show: a minute above 2^53
    is rounded to the nearest double before it is multiplied, and with a
    minute and a negative second of 310 digits the product is Infinity,
    and Infinity plus -Infinity is NaN, on the JSON path as well. *)
Example time_beyond_exact_range :
  LinuxParse.parseDuration "9007199254740993:0" = JS.Num 540431955284459520
  /\ WindowsParse.parseTimeToSeconds "9007199254740993:0" = JS.Num 540431955284459520
  /\ JS.parseInt (nines 310) 10 = JS.Num JS.infinity
  /\ WindowsParse.parseTimeToSeconds (nines 310 +:+ ":-" +:+ nines 310) = JS.NaN
  /\ LinuxParse.parseDuration (nines 310 +:+ ":-" +:+ nines 310) = JS.NaN.
Proof. repeat split; vm_compute; reflexivity. Qed.

Example time_samples :
  WindowsParse.parseTimeToSeconds "xx:30" = JS.Num 30
  /\ WindowsParse.parseTimeToSeconds "ab:cd" = JS.Num 0
  /\ LinuxParse.parseDuration "xx:30" = JS.NaN
  /\ LinuxParse.parseDuration "-1:00" = JS.Num (-60).
Proof. repeat split; reflexivity. Qed.

Lemma isZero_true (code : option Z) : isZero code = true <-> code = Some 0.
Proof.
  destruct code as [z|]; simpl; [|split; discriminate].
  rewrite Z.eqb_eq. split; congruence.
Qed.

Lemma isZero_false (code : option Z) : isZero code = false <-> code <> Some 0.
Proof.
  rewrite <- isZero_true. destruct (isZero code); split; congruence.
Qed.

Lemma mapPlaybackStatus_range (raw : string) :
  In (WindowsParse.mapPlaybackStatus raw) ["playing"; "paused"; "stopped"].
Proof.
  unfold WindowsParse.mapPlaybackStatus.
  destruct (String.eqb raw ""); [simpl; auto|].
  destruct (JS.includes _ "play"); [simpl; auto|].
  destruct (JS.includes _ "pause"); simpl; auto.
Qed.

Lemma parseOutput_filled (output : string) (t : TrackInfo) :
  LinuxParse.parseOutput output = Some t -> filled t.
Proof.
  unfold LinuxParse.parseOutput.
  destruct (8 <=? _)%nat; [|discriminate].
  intros [= <-]. unfold filled, LinuxParse.statusOf. simpl.
  repeat split; try (apply orElse_nonempty; discriminate); try (eexists; reflexivity).
  eexists. split; [reflexivity|]. apply orElse_nonempty. discriminate.
Qed.

Lemma normalize_filled (p : WindowsParse.Parsed) (t : TrackInfo) :
  WindowsParse.normalize p = Some t -> filled t.
Proof.
  destruct p as [| |d]; simpl; try discriminate.
  intros [= <-]. unfold filled. simpl.
  repeat split; try (apply orElse_nonempty; discriminate); try (eexists; reflexivity).
  - pose proof (mapPlaybackStatus_range (default "" (WindowsParse.d_status d))) as Hin.
    simpl in Hin. intros E. rewrite E in Hin.
    destruct Hin as [Hin|[Hin|[Hin|[]]]]; discriminate Hin.
  - eexists. split; [reflexivity | discriminate].
Qed.

(* ===================================================================== *)
(** * Sampling the player *)
(* ===================================================================== *)

Section Sampling.
Context (P : Platform).

Lemma linux_getCurrentTrack_exited this h code out err :
  Linux.isPlayerctlAvailable this = true ->
  helper P (length (spawned h)) ["playerctl"; "metadata"; "--format"; Linux.format]
    = Exited code out err ->
  (Linux.getCurrentTrack P this h).1 =
    if isZero code && negb (String.eqb (JS.trim out) "")
    then LinuxParse.parseOutput out else None.
Proof.
  intros Ha Hh. unfold Linux.getCurrentTrack, bind, spawn, ret.
  rewrite Ha. simpl. rewrite Hh. reflexivity.
Qed.

Lemma windows_getCurrentTrack_exited this h code out err :
  Windows.isWinKlangAvailable this = true ->
  helper P (length (spawned h)) [winKlangPath P; "--json"] = Exited code out err ->
  (Windows.getCurrentTrack P this h).1 =
    if isZero code && negb (String.eqb (JS.trim out) "")
    then WindowsParse.normalize (JSON_parse P (JS.trim out)) else None.
Proof.
  intros Ha Hh. unfold Windows.getCurrentTrack, bind, spawn, ret.
  rewrite Ha. simpl. rewrite Hh. reflexivity.
Qed.

Lemma linux_getCurrentTrack_filled this h t :
  (Linux.getCurrentTrack P this h).1 = Some t -> filled t.
Proof.
  unfold Linux.getCurrentTrack, bind, spawn, ret.
  destruct (negb _); simpl; [discriminate|].
  destruct (helper P _ _) as [code out err|msg]; [|discriminate].
  destruct (_ && _); [apply parseOutput_filled | discriminate].
Qed.

Lemma windows_getCurrentTrack_filled this h t :
  (Windows.getCurrentTrack P this h).1 = Some t -> filled t.
Proof.
  unfold Windows.getCurrentTrack, bind, spawn, ret.
  destruct (negb _); simpl; [discriminate|].
  destruct (helper P _ _) as [code out err|msg]; [|discriminate].
  destruct (_ && _); [apply normalize_filled | discriminate].
Qed.

(** C8.  [getCurrentTrack] never yields a partial record.  On both
    services it yields nothing when the helper exits with a code other
    than 0 or prints a blank output; the delimited parser yields nothing
    on fewer than 8 fields and the JSON path yields nothing when the
    output does not parse; in every other case the result is a record
    with no field missing and every placeholder field non-empty. *)
Theorem getCurrentTrack_never_partial (h : Host) :
  (forall this,
      (forall t, (Linux.getCurrentTrack P this h).1 = Some t -> filled t)
      /\ forall code out err,
          Linux.isPlayerctlAvailable this = true ->
          helper P (length (spawned h))
                 ["playerctl"; "metadata"; "--format"; Linux.format]
            = Exited code out err ->
          (code <> Some 0 -> (Linux.getCurrentTrack P this h).1 = None)
          /\ (JS.trim out = "" -> (Linux.getCurrentTrack P this h).1 = None)
          /\ ((length (JS.split (JS.trim out) "|||") < 8)%nat ->
              (Linux.getCurrentTrack P this h).1 = None)
          /\ (code = Some 0 -> JS.trim out <> "" ->
              (8 <= length (JS.split (JS.trim out) "|||"))%nat ->
              exists t, (Linux.getCurrentTrack P this h).1 = Some t /\ filled t))
  /\ (forall this,
      (forall t, (Windows.getCurrentTrack P this h).1 = Some t -> filled t)
      /\ forall code out err,
          Windows.isWinKlangAvailable this = true ->
          helper P (length (spawned h)) [winKlangPath P; "--json"]
            = Exited code out err ->
          (code <> Some 0 -> (Windows.getCurrentTrack P this h).1 = None)
          /\ (JS.trim out = "" -> (Windows.getCurrentTrack P this h).1 = None)
          /\ (JSON_parse P (JS.trim out) = WindowsParse.SyntaxError
              \/ JSON_parse P (JS.trim out) = WindowsParse.ParsedNull ->
              (Windows.getCurrentTrack P this h).1 = None)
          /\ (code = Some 0 -> JS.trim out <> "" ->
              forall data,
                JSON_parse P (JS.trim out) = WindowsParse.ParsedData data ->
                exists t, (Windows.getCurrentTrack P this h).1 = Some t /\ filled t)).
Proof.
  split; intros this; (split; [intros t; first
    [apply linux_getCurrentTrack_filled | apply windows_getCurrentTrack_filled]|]);
    intros code out err Ha Hh.
  - rewrite (linux_getCurrentTrack_exited _ _ _ _ _ Ha Hh).
    repeat split.
    + intros Hc. apply isZero_false in Hc. rewrite Hc. reflexivity.
    + intros Ht. rewrite Ht. simpl. rewrite andb_false_r. reflexivity.
    + intros Hlen. destruct (_ && _); [|reflexivity].
      unfold LinuxParse.parseOutput, LinuxParse.delimiter.
      apply Nat.leb_gt in Hlen. rewrite Hlen. reflexivity.
    + intros Hc Ht Hlen. apply isZero_true in Hc. rewrite Hc.
      apply String.eqb_neq in Ht. rewrite Ht. simpl.
      destruct (LinuxParse.parseOutput out) as [t|] eqn:E.
      * exists t. split; [reflexivity | exact (parseOutput_filled _ _ E)].
      * unfold LinuxParse.parseOutput, LinuxParse.delimiter in E.
        apply Nat.leb_le in Hlen. rewrite Hlen in E. discriminate E.
  - rewrite (windows_getCurrentTrack_exited _ _ _ _ _ Ha Hh).
    repeat split.
    + intros Hc. apply isZero_false in Hc. rewrite Hc. reflexivity.
    + intros Ht. rewrite Ht. simpl. rewrite andb_false_r. reflexivity.
    + intros [Hp|Hp]; rewrite Hp; destruct (_ && _); reflexivity.
    + intros Hc Ht data Hp. apply isZero_true in Hc. rewrite Hc.
      apply String.eqb_neq in Ht. rewrite Ht, Hp. simpl.
      eexists. split; [reflexivity|].
      apply (normalize_filled (WindowsParse.ParsedData data)). reflexivity.
Qed.

(** C9.  On the Windows service a sampled position of 0 is reported by
    [getPosition] as absent. *)
Theorem getPosition_zero_is_absent (this : Windows.Service) (h : Host) (t : TrackInfo) :
  (Windows.getCurrentTrack P this h).1 = Some t ->
  position t = Some (JS.Num 0) ->
  (Windows.getPosition P this h).1 = None.
Proof.
  intros Ht Hp. unfold Windows.getPosition.
  destruct (negb _); [reflexivity|].
  unfold bind, ret. destruct (Windows.getCurrentTrack P this h) as [track h'].
  simpl in *. subst track. rewrite Hp. reflexivity.
Qed.

(** C10.  The delimited parser accepts a line of more than 8 fields: the
    record is built from the first 8 fields in order and the others are
    ignored. *)
Theorem delimited_parser_ignores_extra_fields (output : string) :
  (8 < length (JS.split (JS.trim output) "|||"))%nat ->
  LinuxParse.parseOutput output
    = Some (ofFields (firstn 8 (JS.split (JS.trim output) "|||")))
  /\ forall this h err,
      Linux.isPlayerctlAvailable this = true ->
      helper P (length (spawned h)) ["playerctl"; "metadata"; "--format"; Linux.format]
        = Exited (Some 0) output err ->
      (Linux.getCurrentTrack P this h).1
        = Some (ofFields (firstn 8 (JS.split (JS.trim output) "|||"))).
Proof.
  intros Hlen.
  assert (Hparse : LinuxParse.parseOutput output
                   = Some (ofFields (firstn 8 (JS.split (JS.trim output) "|||")))).
  { unfold LinuxParse.parseOutput, LinuxParse.delimiter, LinuxParse.statusOf.
    destruct (JS.split (JS.trim output) "|||") as [|f0 [|f1 [|f2 [|f3 [|f4 [|f5 [|f6 [|f7 rest]]]]]]]];
      simpl in Hlen; try lia.
    reflexivity. }
  split; [exact Hparse|].
  intros this h err Ha Hh.
  rewrite (linux_getCurrentTrack_exited _ _ _ _ _ Ha Hh), Hparse.
  destruct (String.eqb (JS.trim output) "") eqn:E; [|reflexivity].
  apply String.eqb_eq in E. rewrite E in Hlen. vm_compute in Hlen. lia.
Qed.

End Sampling.

(** A line of eight fields gives a filled record. *)
Lemma getCurrentTrack_never_partial_witness :
  exists t,
    (Linux.getCurrentTrack (helperEnds (Exited (Some 0) eightFields "") atStart)
                           (Linux.mkService true None ∅) freshHost).1 = Some t
    /\ filled t.
Proof.
  destruct (getCurrentTrack_never_partial
              (helperEnds (Exited (Some 0) eightFields "") atStart) freshHost) as [HL _].
  destruct (HL (Linux.mkService true None ∅)) as [_ H].
  destruct (H (Some 0) eightFields "" eq_refl eq_refl) as (_ & _ & _ & H4).
  apply H4; [reflexivity | vm_compute; discriminate | vm_compute; lia].
Defined.

(** A track sampled at "00:00" has no position for [getPosition]. *)
Lemma getPosition_zero_is_absent_witness :
  (Windows.getPosition (helperEnds (Exited (Some 0) "{}" "") atStart)
                       (Windows.mkService true None ∅) freshHost).1 = None.
Proof.
  eapply getPosition_zero_is_absent; reflexivity.
Defined.

(** A line with a ninth field gives the record of its first eight. *)
Lemma delimited_parser_ignores_extra_fields_witness :
  LinuxParse.parseOutput nineFields = LinuxParse.parseOutput eightFields
  /\ (Linux.getCurrentTrack (helperEnds (Exited (Some 0) nineFields "") atStart)
                            (Linux.mkService true None ∅) freshHost).1
     = Some (mkTrackInfo "Song" "file:///tmp/a.png" "Band" "Album"
                         (Some (JS.Num 200)) (Some (JS.Num 65)) "playing" (Some "vlc")).
Proof.
  destruct (delimited_parser_ignores_extra_fields
              (helperEnds (Exited (Some 0) nineFields "") atStart) nineFields)
    as [Hp Hs]; [vm_compute; lia|].
  split.
  - rewrite Hp. reflexivity.
  - rewrite (Hs (Linux.mkService true None ∅) freshHost "" eq_refl eq_refl).
    reflexivity.
Defined.

(* ===================================================================== *)
(** * The command dispatcher *)
(* ===================================================================== *)

Section Dispatch.
Context (P : Platform).

(** C7.  With the availability flag false the services are inert:
    [getCurrentTrack] yields nothing and leaves the host as it was, and
    each control operation resolves after showing one warning; no child
    process is started. *)
Theorem unavailable_is_inert (h : Host) :
  (forall this,
      Linux.isPlayerctlAvailable this = false ->
      Linux.getCurrentTrack P this h = (None, h)
      /\ Linux.playPause P this h
         = (Fulfilled tt, notified (Warning Linux.notAvailable) h)
      /\ Linux.next P this h
         = (Fulfilled tt, notified (Warning Linux.notAvailable) h)
      /\ Linux.previous P this h
         = (Fulfilled tt, notified (Warning Linux.notAvailable) h))
  /\ (forall this,
      Windows.isWinKlangAvailable this = false ->
      Windows.getCurrentTrack P this h = (None, h)
      /\ Windows.playPause P this h
         = (Fulfilled tt, notified (Warning Windows.notAvailable) h)
      /\ Windows.next P this h
         = (Fulfilled tt, notified (Warning Windows.notAvailable) h)
      /\ Windows.previous P this h
         = (Fulfilled tt, notified (Warning Windows.notAvailable) h))
  /\ (forall n, spawned (notified n h) = spawned h).
Proof.
  split; [|split]; [intros this Ha ..|reflexivity].
  - unfold Linux.getCurrentTrack, Linux.playPause, Linux.next, Linux.previous.
    rewrite Ha. repeat split; reflexivity.
  - unfold Windows.getCurrentTrack, Windows.playPause, Windows.next, Windows.previous.
    rewrite Ha. repeat split; reflexivity.
Qed.

(** C6, amended.  While the backend is available and the helper exits
    with a code other than 0: on the Windows service [next] and [previous]
    resolve after an informational notice when the captured standard error
    contains "not available", and otherwise fail with an error that carries
    the exit code and the captured standard error; on the Linux service
    the three operations fail with an error that carries the exit code. *)
Theorem control_exit_handling (h : Host) (code : option Z) (out err : string) :
  code <> Some 0 ->
  (forall this,
      Windows.isWinKlangAvailable this = true ->
      (helper P (length (spawned h)) [winKlangPath P; "--next"] = Exited code out err ->
       Windows.next P this h =
       if JS.includes err "not available"
       then (Fulfilled tt,
             notified (Information
                         "Next track control is not available for the current media player.")
                      (started [winKlangPath P; "--next"] h))
       else (Rejected ("WinKlang next failed with code " +:+ showCode code
                       +:+ ": " +:+ err),
             started [winKlangPath P; "--next"] h))
      /\ (helper P (length (spawned h)) [winKlangPath P; "--prev"] = Exited code out err ->
          Windows.previous P this h =
          if JS.includes err "not available"
          then (Fulfilled tt,
                notified (Information
                            "Previous track control is not available for the current media player.")
                         (started [winKlangPath P; "--prev"] h))
          else (Rejected ("WinKlang previous failed with code " +:+ showCode code
                          +:+ ": " +:+ err),
                started [winKlangPath P; "--prev"] h)))
  /\ (forall this,
      Linux.isPlayerctlAvailable this = true ->
      (helper P (length (spawned h)) ["playerctl"; "play-pause"] = Exited code out err ->
       Linux.playPause P this h =
       (Rejected ("playerctl play-pause failed with code " +:+ showCode code),
        started ["playerctl"; "play-pause"] h))
      /\ (helper P (length (spawned h)) ["playerctl"; "next"] = Exited code out err ->
          Linux.next P this h =
          (Rejected ("playerctl next failed with code " +:+ showCode code),
           started ["playerctl"; "next"] h))
      /\ (helper P (length (spawned h)) ["playerctl"; "previous"] = Exited code out err ->
          Linux.previous P this h =
          (Rejected ("playerctl previous failed with code " +:+ showCode code),
           started ["playerctl"; "previous"] h))).
Proof.
  intros Hc. apply isZero_false in Hc.
  split; intros this Ha.
  - unfold Windows.next, Windows.previous, bind, spawn, showMessage, ret.
    rewrite Ha. simpl.
    split; intros ->; rewrite Hc; destruct (JS.includes err "not available"); reflexivity.
  - unfold Linux.playPause, Linux.next, Linux.previous, bind, spawn, ret.
    rewrite Ha. simpl.
    repeat split; intros ->; rewrite Hc; reflexivity.
Qed.

End Dispatch.

(** After a probe that could not start the helper, play/pause only warns. *)
Lemma unavailable_is_inert_witness :
  let P := helperEnds (SpawnFailed "ENOENT") atStart in
  let probe := Linux.checkPlayerctlAvailability P (Linux.mkService true None ∅) freshHost in
  Linux.isPlayerctlAvailable probe.1 = false
  /\ Linux.playPause P probe.1 probe.2
     = (Fulfilled tt, notified (Warning Linux.notAvailable) probe.2)
  /\ spawned (notified (Warning Linux.notAvailable) probe.2) = [["playerctl"; "--version"]].
Proof.
  intros P probe.
  destruct (unavailable_is_inert P probe.2) as (HL & _ & Hs).
  destruct (HL probe.1 eq_refl) as (_ & Hpp & _).
  split; [reflexivity|]. split; [exact Hpp|]. rewrite Hs. reflexivity.
Defined.

(** C6, as stated, fails: the Linux service does not read the standard
    error, and [next] fails on exit code 1 whatever the helper printed. *)
Lemma control_counterexample :
  ~ (forall (P : Platform) this h code out err,
       Linux.isPlayerctlAvailable this = true ->
       helper P (length (spawned h)) ["playerctl"; "next"] = Exited code out err ->
       code <> Some 0 ->
       JS.includes err "not available" = true ->
       (Linux.next P this h).1 = Fulfilled tt).
Proof.
  intros H.
  specialize (H (helperEnds (Exited (Some 1) "" "Command not available") atStart)
                (Linux.mkService true None ∅) freshHost (Some 1) ""
                "Command not available" eq_refl eq_refl).
  assert (Hr : @Rejected unit "playerctl next failed with code 1" = Fulfilled tt).
  { apply H; [discriminate | reflexivity]. }
  discriminate Hr.
Qed.

(** The two scenarios of the specification on the Windows service: exit 1
    with "not available" on the standard error, exit 2 with another text. *)
Lemma control_exit_handling_witness :
  (Windows.next (helperEnds (Exited (Some 1) "" "Next is not available") atStart)
                (Windows.mkService true None ∅) freshHost).1 = Fulfilled tt
  /\ (Windows.previous (helperEnds (Exited (Some 2) "" "access denied") atStart)
                       (Windows.mkService true None ∅) freshHost).1
     = Rejected "WinKlang previous failed with code 2: access denied".
Proof.
  split.
  - destruct (control_exit_handling
                (helperEnds (Exited (Some 1) "" "Next is not available") atStart)
                freshHost (Some 1) "" "Next is not available") as [HW _];
      [discriminate|].
    destruct (HW (Windows.mkService true None ∅) eq_refl) as [Hn _].
    rewrite (Hn eq_refl). reflexivity.
  - destruct (control_exit_handling
                (helperEnds (Exited (Some 2) "" "access denied") atStart)
                freshHost (Some 2) "" "access denied") as [HW _];
      [discriminate|].
    destruct (HW (Windows.mkService true None ∅) eq_refl) as [_ Hp].
    rewrite (Hp eq_refl). reflexivity.
Defined.

(* ===================================================================== *)
(** * The artwork resolvers *)
(* ===================================================================== *)

(** Unfold one layer of the host operations. *)
Ltac run_step :=
  cbv beta iota delta
    [bind ret existsSync copyFileSync httpGet writeEntry mkdirSync Date_now
     Linux.ensureUploadsDir Linux.downloadFile
     ArtworkUtil.getArtworkDirectory ArtworkUtil.handleFileUrl ArtworkUtil.handleHttpUrl];
  cbn [fst snd negb].

(** Split on an innermost test of the goal. *)
Ltac run_case :=
  match goal with
  | |- context [match ?x with _ => _ end] =>
      lazymatch x with
      | context [match _ with _ => _ end] => fail
      | _ => destruct x eqn:?
      end
  end; run_step.

Section Artwork.
Context (P : Platform).

Lemma linux_cache_hit this url p h :
  url <> "" ->
  Linux.artworkCache this !! url = Some p ->
  Linux.downloadArtwork P this url h = ((Fulfilled (Some p), this), h).
Proof.
  intros Hu Hc. unfold Linux.downloadArtwork.
  apply String.eqb_neq in Hu. rewrite Hu, Hc. reflexivity.
Qed.

Lemma linux_first_resolve this url h p this1 h1 :
  Linux.downloadArtwork P this url h = ((Fulfilled (Some p), this1), h1) ->
  url <> "" /\ Linux.artworkCache this1 !! url = Some p
  /\ (transfers h1 <= transfers h + 1)%nat.
Proof.
  unfold Linux.downloadArtwork.
  destruct (String.eqb url "") eqn:Eu; [discriminate|].
  apply String.eqb_neq in Eu.
  destruct (Linux.artworkCache this !! url) as [cached|] eqn:Ec.
  { intros [= <- <- <-]. repeat split; [assumption.. | lia]. }
  run_step. repeat run_case; try discriminate.
  all: intros [= <- <- <-]; (split; [exact Eu|]); split.
  all: try (unfold Linux.cacheSet; simpl; apply lookup_insert_eq).
  all: unfold transfers; simpl; rewrite ?length_app; simpl; lia.
Qed.

Lemma util_cache_hit this url p h :
  url <> "" ->
  ArtworkUtil.extensionContext this = true ->
  ArtworkUtil.artworkCache this !! url = Some p ->
  ArtworkUtil.downloadArtwork P this url h = ((Fulfilled (Some p), this), h).
Proof.
  intros Hu He Hc. unfold ArtworkUtil.downloadArtwork.
  apply String.eqb_neq in Hu. rewrite Hu, He, Hc. reflexivity.
Qed.

Lemma util_first_resolve this url h p this1 h1 :
  ArtworkUtil.downloadArtwork P this url h = ((Fulfilled (Some p), this1), h1) ->
  url <> "" /\ ArtworkUtil.extensionContext this1 = true
  /\ ArtworkUtil.artworkCache this1 !! url = Some p
  /\ (transfers h1 <= transfers h + 1)%nat.
Proof.
  unfold ArtworkUtil.downloadArtwork.
  destruct (String.eqb url "") eqn:Eu; [discriminate|].
  apply String.eqb_neq in Eu.
  destruct (ArtworkUtil.extensionContext this) eqn:Ee; [|discriminate].
  cbn [orb negb].
  destruct (ArtworkUtil.artworkCache this !! url) as [cached|] eqn:Ec.
  { intros [= <- <- <-]. repeat split; [assumption.. | lia]. }
  run_step. repeat run_case; try discriminate.
  all: intros [= <- <- <-]; (split; [exact Eu|]); (split; [exact Ee|]); split.
  all: try (unfold ArtworkUtil.cacheSet; simpl; apply lookup_insert_eq).
  all: unfold transfers; simpl; rewrite ?length_app; simpl; lia.
Qed.

(** C5.  Resolving is idempotent per locator string.  On either
    resolver, when a resolve of a locator yields a local path, it made at
    most one network or file transfer, and any later resolve of the same
    locator on the same controller yields the same path from the
    exact-match cache and leaves the host untouched: no second download
    and no second copy. *)
Theorem resolve_twice :
  (forall this url h p this1 h1,
      Linux.downloadArtwork P this url h = ((Fulfilled (Some p), this1), h1) ->
      (transfers h1 <= transfers h + 1)%nat
      /\ forall h', Linux.downloadArtwork P this1 url h' = ((Fulfilled (Some p), this1), h'))
  /\ (forall this url h p this1 h1,
      ArtworkUtil.downloadArtwork P this url h = ((Fulfilled (Some p), this1), h1) ->
      (transfers h1 <= transfers h + 1)%nat
      /\ forall h', ArtworkUtil.downloadArtwork P this1 url h'
                    = ((Fulfilled (Some p), this1), h')).
Proof.
  split; intros this url h p this1 h1 H.
  - apply linux_first_resolve in H as (Hu & Hc & Ht).
    split; [exact Ht|]. intros h'. apply linux_cache_hit; assumption.
  - apply util_first_resolve in H as (Hu & He & Hc & Ht).
    split; [exact Ht|]. intros h'. apply util_cache_hit; assumption.
Qed.

End Artwork.

(** A cover that downloads at once: the second resolve, made later on a
    host where the clock has moved, gives the path of the first. *)
Lemma resolve_twice_witness :
  let P := stubPlatform (fun _ _ => SpawnFailed "ENOENT")
                        (fun _ _ => Response 200 Complete) atStart in
  let first := Linux.downloadArtwork P (Linux.mkService true None ∅)
                                     "http://host/cover.jpg" freshHost in
  let later := mkHost (spawned first.2) (shown first.2) (disk first.2)
                      (requests first.2) (copies first.2) 5000 in
  first.1.1 = Fulfilled (Some "vscode-resource:///storage/uploads/artwork_0.jpg")
  /\ Linux.downloadArtwork P first.1.2 "http://host/cover.jpg" later
     = ((Fulfilled (Some "vscode-resource:///storage/uploads/artwork_0.jpg"), first.1.2),
        later).
Proof.
  intros P first later.
  split; [reflexivity|].
  apply (proj1 (resolve_twice P) (Linux.mkService true None ∅)
               "http://host/cover.jpg" freshHost _ first.1.2 first.2).
  reflexivity.
Defined.

(** A resolve that yields no path is outside [resolve_twice]: after a
    404 nothing is cached, and the next resolve sends the request again. *)
Example resolve_after_failure :
  let P := stubPlatform (fun _ _ => SpawnFailed "ENOENT") flaky atStart in
  let first := ArtworkUtil.downloadArtwork
                 P (ArtworkUtil.initialize (ArtworkUtil.mkUtil ∅ false))
                 "http://host/cover.jpg" freshHost in
  let second := ArtworkUtil.downloadArtwork P first.1.2 "http://host/cover.jpg" first.2 in
  first.1.1 = Fulfilled None
  /\ ArtworkUtil.artworkCache first.1.2 !! "http://host/cover.jpg" = None
  /\ second.1.1
     = Fulfilled (Some "file:///storage/artwork/artwork_http:__host_cover.jpg.jpg")
  /\ requests second.2 = ["http://host/cover.jpg"; "http://host/cover.jpg"].
Proof. repeat split; reflexivity. Qed.

(** C4 fails on the utility at a download whose body breaks: the first
    resolve answers null and caches nothing, but it leaves the unfinished
    file at the path the locator names, and the next resolve finds that
    file, caches it and answers it without a transfer. *)
Theorem partial_download_is_served :
  let P := stubPlatform (fun _ _ => SpawnFailed "ENOENT")
                        (fun _ _ => Response 200 SocketError) atStart in
  let url := "http://host/cover.jpg" in
  let path := "/storage/artwork/artwork_http:__host_cover.jpg.jpg" in
  let first := ArtworkUtil.downloadArtwork
                 P (ArtworkUtil.initialize (ArtworkUtil.mkUtil ∅ false)) url freshHost in
  let second := ArtworkUtil.downloadArtwork P first.1.2 url first.2 in
  first.1.1 = Fulfilled None
  /\ ArtworkUtil.artworkCache first.1.2 !! url = None
  /\ disk first.2 !! path = Some (File false)
  /\ requests first.2 = [url]
  /\ second.1.1 = Fulfilled (Some ("file://" +:+ path))
  /\ ArtworkUtil.artworkCache second.1.2 !! url = Some ("file://" +:+ path)
  /\ disk second.2 !! path = Some (File false)
  /\ requests second.2 = [url].
Proof. repeat split; reflexivity. Qed.

(** The same download on the Linux service: the unfinished file is never
    looked at, and the next resolve fetches again. *)
Example linux_partial_download_is_retried :
  let P := stubPlatform (fun _ _ => SpawnFailed "ENOENT")
                        (fun _ _ => Response 200 SocketError) atStart in
  let url := "http://host/cover.jpg" in
  let first := Linux.downloadArtwork P (Linux.mkService true None ∅) url freshHost in
  let second := Linux.downloadArtwork P first.1.2 url first.2 in
  first.1.1 = Fulfilled None
  /\ Linux.artworkCache first.1.2 !! url = None
  /\ second.1.1 = Fulfilled None
  /\ requests second.2 = [url; url].
Proof. repeat split; reflexivity. Qed.

(** The unfinished file is served as well when no event reaches the code
    and the first call never settles. *)
Example stalled_download_is_served :
  let P := stubPlatform (fun _ _ => SpawnFailed "ENOENT")
                        (fun _ _ => Response 200 Stalled) atStart in
  let url := "http://host/cover.jpg" in
  let first := ArtworkUtil.downloadArtwork
                 P (ArtworkUtil.initialize (ArtworkUtil.mkUtil ∅ false)) url freshHost in
  let second := ArtworkUtil.downloadArtwork P first.1.2 url first.2 in
  first.1.1 = Pending
  /\ second.1.1
     = Fulfilled (Some "file:///storage/artwork/artwork_http:__host_cover.jpg.jpg")
  /\ requests second.2 = [url].
Proof. repeat split; reflexivity. Qed.

(* ===================================================================== *)
(** * More on the primitives *)
(* ===================================================================== *)

Lemma append_cons (c : ascii) (a b : string) :
  String c a +:+ b = String c (a +:+ b).
Proof. reflexivity. Qed.

Lemma append_empty_r (a : string) : a +:+ "" = a.
Proof.
  induction a as [|c a IH]; [reflexivity|]. rewrite append_cons, IH. reflexivity.
Qed.

Lemma rev_app_append (a b s : string) :
  String.rev_app a b +:+ s = String.rev_app a (b +:+ s).
Proof.
  revert b. induction a as [|c a IH]; intros b; simpl; [reflexivity|].
  rewrite IH, append_cons. reflexivity.
Qed.

Lemma rev_cons_append (c : ascii) (cur s : string) :
  String.rev (String c cur) +:+ s = String.rev cur +:+ String c s.
Proof.
  unfold String.rev. simpl. rewrite !rev_app_append. reflexivity.
Qed.


Lemma isPrefix_split (p s : string) :
  JS.isPrefix p s = true -> s = p +:+ JS.drop (String.length p) s.
Proof.
  revert s. induction p as [|a p IH]; intros s H; [reflexivity|].
  destruct s as [|b s]; [discriminate|]. simpl in H.
  apply andb_true_iff in H as [Hab Hp]. apply Ascii.eqb_eq in Hab. subst b.
  cbn [String.length JS.drop]. rewrite append_cons. f_equal. apply IH, Hp.
Qed.

Lemma splitGo_skip (sep s : string) (k : nat) (cur : string) :
  JS.splitGo sep s k cur = JS.splitGo sep (JS.drop k s) O cur.
Proof.
  revert k. induction s as [|c s IH]; intros k.
  - destruct k; reflexivity.
  - destruct k as [|k]; [reflexivity|]. simpl. apply IH.
Qed.

Lemma splitGo_nonempty (sep s : string) (k : nat) (cur : string) :
  JS.splitGo sep s k cur <> [].
Proof.
  revert k cur. induction s as [|c s IH]; intros k cur; simpl; [discriminate|].
  destruct k; [|apply IH].
  destruct (JS.isPrefix sep (String c s)); [discriminate | apply IH].
Qed.

Lemma join_cons (sep x : string) (rest : list string) :
  rest <> [] -> join sep (x :: rest) = x +:+ sep +:+ join sep rest.
Proof. destruct rest; [congruence | reflexivity]. Qed.

Lemma append_assoc (a b c : string) : (a +:+ b) +:+ c = a +:+ (b +:+ c).
Proof.
  induction a as [|x a IH]; [reflexivity|]. rewrite !append_cons, IH. reflexivity.
Qed.

Lemma drop_length (n : nat) (s : string) :
  (String.length (JS.drop n s) <= String.length s)%nat.
Proof.
  revert s. induction n as [|n IH]; intros s; simpl; [lia|].
  destruct s as [|c s]; simpl; [lia|]. specialize (IH s). lia.
Qed.

Lemma splitGo_join (sep : string) (n : nat) :
  sep <> "" ->
  forall s cur, (String.length s <= n)%nat ->
    join sep (JS.splitGo sep s O cur) = String.rev cur +:+ s.
Proof.
  intros Hsep. induction n as [|n IH]; intros s cur Hn.
  - destruct s; [|simpl in Hn; lia]. simpl. rewrite append_empty_r. reflexivity.
  - destruct s as [|c s].
    { simpl. rewrite append_empty_r. reflexivity. }
    cbn [JS.splitGo]. destruct (JS.isPrefix sep (String c s)) eqn:E.
    + rewrite join_cons by apply splitGo_nonempty.
      rewrite splitGo_skip, IH.
      * apply isPrefix_split in E.
        destruct sep as [|a sep']; [congruence|].
        simpl in E. injection E as <- E.
        cbn [String.length Nat.sub]. rewrite Nat.sub_0_r.
        unfold String.rev at 2. simpl.
        rewrite E at 2. reflexivity.
      * simpl in Hn. pose proof (drop_length (String.length sep - 1) s). lia.
    + rewrite IH by (simpl in Hn; lia). apply rev_cons_append.
Qed.

(** Joining the pieces of a split with the separator gives the string
    back. *)
Theorem split_join (s sep : string) :
  sep <> "" -> join sep (JS.split s sep) = s.
Proof.
  intros Hsep. unfold JS.split.
  rewrite (splitGo_join sep (String.length s) Hsep s "" (le_n _)). reflexivity.
Qed.

Lemma split_join_witness :
  join "|||" (JS.split "a|||b||||c|||" "|||") = "a|||b||||c|||".
Proof. apply split_join. discriminate. Defined.

Lemma trimStart_blank (s : string) :
  JS.trimStart s = "" <-> allWhiteSpace s = true.
Proof.
  induction s as [|c s IH]; simpl; [tauto|].
  destruct (JS.isWhiteSpace c); simpl; [exact IH|].
  split; discriminate.
Qed.

Lemma trimStart_allWhiteSpace (s : string) :
  allWhiteSpace (JS.trimStart s) = allWhiteSpace s.
Proof.
  induction s as [|c s IH]; simpl; [reflexivity|].
  destruct (JS.isWhiteSpace c) eqn:E; simpl; [exact IH|].
  rewrite E. reflexivity.
Qed.

Lemma rev_app_allWhiteSpace (a b : string) :
  allWhiteSpace (String.rev_app a b) = allWhiteSpace a && allWhiteSpace b.
Proof.
  revert b. induction a as [|c a IH]; intros b; simpl; [reflexivity|].
  rewrite IH. simpl. destruct (JS.isWhiteSpace c), (allWhiteSpace a); reflexivity.
Qed.

Lemma rev_allWhiteSpace (s : string) :
  allWhiteSpace (String.rev s) = allWhiteSpace s.
Proof.
  unfold String.rev. rewrite rev_app_allWhiteSpace. simpl. apply andb_true_r.
Qed.

Lemma rev_app_nonempty (a b : string) : b <> "" -> String.rev_app a b <> "".
Proof.
  revert b. induction a as [|c a IH]; intros b Hb; simpl; [exact Hb|].
  apply IH. discriminate.
Qed.

Lemma rev_empty (s : string) : String.rev s = "" <-> s = "".
Proof.
  split; [|intros ->; reflexivity].
  destruct s as [|c s]; [reflexivity|]. unfold String.rev. simpl. intros H.
  exfalso. revert H. apply rev_app_nonempty. discriminate.
Qed.

Lemma trim_empty_iff (s : string) :
  JS.trim s = "" <-> allWhiteSpace s = true.
Proof.
  unfold JS.trim, JS.trimEnd.
  rewrite rev_empty, trimStart_blank, rev_allWhiteSpace, trimStart_allWhiteSpace.
  reflexivity.
Qed.

Section BlankOutput.
Context (P : Platform).

(** [trim] gives the empty string exactly on the strings made of white
    space only, so an output of white space only gives no track, on both
    services, whatever the exit code. *)
Theorem blank_output_is_no_track (h : Host) (code : option Z) (out err : string) :
  allWhiteSpace out = true ->
  (forall this,
      helper P (length (spawned h)) ["playerctl"; "metadata"; "--format"; Linux.format]
        = Exited code out err ->
      (Linux.getCurrentTrack P this h).1 = None)
  /\ (forall this,
      helper P (length (spawned h)) [winKlangPath P; "--json"] = Exited code out err ->
      (Windows.getCurrentTrack P this h).1 = None).
Proof.
  intros Hb. apply trim_empty_iff in Hb.
  split; intros this Hh.
  - unfold Linux.getCurrentTrack, bind, spawn, ret.
    destruct (negb _); [reflexivity|]. simpl. rewrite Hh, Hb.
    rewrite andb_false_r. reflexivity.
  - unfold Windows.getCurrentTrack, bind, spawn, ret.
    destruct (negb _); [reflexivity|]. simpl. rewrite Hh, Hb.
    rewrite andb_false_r. reflexivity.
Qed.

End BlankOutput.

Lemma blank_output_is_no_track_witness :
  (Linux.getCurrentTrack (helperEnds (Exited (Some 0) "  " "") atStart)
                         (Linux.mkService true None ∅) freshHost).1 = None.
Proof.
  refine (proj1 (blank_output_is_no_track
                   (helperEnds (Exited (Some 0) "  " "") atStart)
                   freshHost (Some 0) "  " "" _) _ _); reflexivity.
Defined.

(** The file name the utility and the controller derive from a locator
    holds no path separator and none of the other two code units the
    replacement removes, and is as long as the encoding it comes from. *)
Theorem sanitize_safe (s : string) :
  countChar "/" (ArtworkUtil.sanitize s) = O
  /\ countChar "+" (ArtworkUtil.sanitize s) = O
  /\ countChar "=" (ArtworkUtil.sanitize s) = O
  /\ String.length (ArtworkUtil.sanitize s) = String.length s
  /\ ArtworkUtil.sanitize (ArtworkUtil.sanitize s) = ArtworkUtil.sanitize s.
Proof.
  induction s as [|c s (H1 & H2 & H3 & H4 & H5)]; [repeat split|].
  cbn [ArtworkUtil.sanitize countChar String.length].
  rewrite H1, H2, H3, H4, H5.
  destruct (Ascii.eqb c "/") eqn:E1; [repeat split|].
  destruct (Ascii.eqb c "+") eqn:E2; [repeat split|].
  destruct (Ascii.eqb c "=") eqn:E3; [repeat split|].
  cbn [orb]. rewrite E1, E2, E3. repeat split.
Qed.

(* ===================================================================== *)
(** * More on the change predicate and on sampling *)
(* ===================================================================== *)

(** The change predicate does not depend on the order of its two records,
    and no record, present or absent, has changed against itself. *)
Theorem hasTrackChanged_symmetric (a b : option TrackInfo) :
  hasTrackChanged a b = hasTrackChanged b a /\ hasTrackChanged a a = false.
Proof.
  split.
  - destruct a as [a|], b as [b|]; try reflexivity. unfold hasTrackChanged.
    rewrite (String.eqb_sym (title a)), (String.eqb_sym (artist a)),
      (String.eqb_sym (status a)).
    replace (JS.orZero (position b) - JS.orZero (position a))
      with (- (JS.orZero (position a) - JS.orZero (position b))) by lia.
    rewrite Z.abs_opp. reflexivity.
  - destruct a as [a|]; [|reflexivity]. unfold hasTrackChanged.
    rewrite !String.eqb_refl, Z.sub_diag. reflexivity.
Qed.

(** Rewriting the artwork field of a record does not make it changed. *)
Lemma withArtUrl_unchanged (t : TrackInfo) (p : string) :
  hasTrackChanged (Some (withArtUrl t p)) (Some t) = false.
Proof.
  unfold hasTrackChanged, withArtUrl. simpl.
  rewrite !String.eqb_refl, Z.sub_diag. reflexivity.
Qed.

Section MoreSampling.
Context (P : Platform).

(** Every record the Windows service samples has a status among playing,
    paused and stopped and the player name "Windows Media Session", and
    carries a position and a duration: neither field is left undefined. *)
Theorem windows_sample_range (this : Windows.Service) (h : Host) (t : TrackInfo) :
  (Windows.getCurrentTrack P this h).1 = Some t ->
  In (status t) ["playing"; "paused"; "stopped"]
  /\ player t = Some "Windows Media Session"
  /\ position t <> None
  /\ duration t <> None.
Proof.
  unfold Windows.getCurrentTrack, bind, spawn, ret.
  destruct (negb _); simpl; [discriminate|].
  destruct (helper P _ _) as [code out err|msg]; [|discriminate].
  destruct (_ && _); [|discriminate].
  destruct (JSON_parse P _) as [| |d]; simpl; try discriminate.
  intros [= <-]. simpl. split; [apply mapPlaybackStatus_range|].
  split; [reflexivity|].
  split; discriminate.
Qed.

(** [getPosition] of the Windows service answers the position of its own
    sample when that is not 0, and never answers 0 or NaN. *)
Theorem windows_getPosition_spec (this : Windows.Service) (h : Host) :
  (forall t z,
      (Windows.getCurrentTrack P this h).1 = Some t ->
      position t = Some (JS.Num z) -> z <> 0 ->
      (Windows.getPosition P this h).1 = Some (JS.Num z))
  /\ (forall n,
      (Windows.getPosition P this h).1 = Some n -> exists z, n = JS.Num z /\ z <> 0)
  /\ ((Windows.getCurrentTrack P this h).1 = None ->
      (Windows.getPosition P this h).1 = None)
  /\ (Windows.getPosition P this h).2 = (Windows.getCurrentTrack P this h).2.
Proof.
  unfold Windows.getPosition.
  destruct (negb (Windows.isWinKlangAvailable this)) eqn:Ea.
  - unfold Windows.getCurrentTrack. rewrite Ea. unfold ret. simpl.
    repeat split; try discriminate.
  - unfold bind, ret.
    destruct (Windows.getCurrentTrack P this h) as [track h'] eqn:E. simpl.
    repeat split.
    + intros t z -> Hp Hz. rewrite Hp. simpl.
      apply Z.eqb_neq in Hz. rewrite Hz. reflexivity.
    + intros n. destruct track as [t|]; [|discriminate].
      destruct (position t) as [[z|]|]; simpl; try discriminate.
      destruct (z =? 0) eqn:Ez; [discriminate|].
      intros [= <-]. exists z. split; [reflexivity | apply Z.eqb_neq, Ez].
    + intros ->. reflexivity.
Qed.

(** The probes.  The Linux probe starts one child and sets the flag
    exactly when that child exits with code 0; the Windows probe starts
    no child when the helper file is missing and leaves the flag false,
    and otherwise does as the Linux one.  Neither touches the stored
    track or the artwork cache. *)
Theorem probe_spec (h : Host) :
  (forall this,
      let r := Linux.checkPlayerctlAvailability P this h in
      (Linux.isPlayerctlAvailable r.1 = true <->
       exists out err, helper P (length (spawned h)) ["playerctl"; "--version"]
                       = Exited (Some 0) out err)
      /\ r.2 = started ["playerctl"; "--version"] h
      /\ Linux.currentTrack r.1 = Linux.currentTrack this
      /\ Linux.artworkCache r.1 = Linux.artworkCache this)
  /\ (forall this,
      let r := Windows.checkWinKlangAvailability P this h in
      (disk h !! winKlangPath P = None ->
       Windows.isWinKlangAvailable r.1 = false /\ r.2 = h)
      /\ (is_Some (disk h !! winKlangPath P) ->
          (Windows.isWinKlangAvailable r.1 = true <->
           exists out err, helper P (length (spawned h)) [winKlangPath P; "--json"]
                           = Exited (Some 0) out err)
          /\ r.2 = started [winKlangPath P; "--json"] h)
      /\ Windows.currentTrack r.1 = Windows.currentTrack this
      /\ Windows.artworkCache r.1 = Windows.artworkCache this).
Proof.
  split; intros this r; subst r.
  - unfold Linux.checkPlayerctlAvailability, bind, spawn, ret. simpl.
    repeat split; try reflexivity.
    + destruct (helper P _ _) as [code out err|msg]; [|discriminate].
      intros Hz. apply isZero_true in Hz. subst code. eauto.
    + intros (out & err & ->). reflexivity.
  - unfold Windows.checkWinKlangAvailability, bind, spawn, existsSync, ret.
    destruct (disk h !! winKlangPath P) as [e|] eqn:Ed; simpl.
    + repeat split; try reflexivity; try discriminate.
      * destruct (helper P _ _) as [code out err|msg]; [|discriminate].
        intros Hz. apply isZero_true in Hz. subst code. eauto.
      * intros (out & err & ->). reflexivity.
    + split; [split; reflexivity|].
      split; [intros [x Hx]; discriminate|].
      split; reflexivity.
Qed.

End MoreSampling.

Lemma windows_sample_range_witness :
  exists t,
    (Windows.getCurrentTrack (helperEnds (Exited (Some 0) "{}" "") midSong)
                             (Windows.mkService true None ∅) freshHost).1 = Some t
    /\ In (status t) ["playing"; "paused"; "stopped"]
    /\ player t = Some "Windows Media Session"
    /\ position t <> None
    /\ duration t <> None.
Proof.
  eexists. split; [reflexivity|].
  apply (windows_sample_range (helperEnds (Exited (Some 0) "{}" "") midSong)
                              (Windows.mkService true None ∅) freshHost).
  reflexivity.
Defined.

Lemma windows_getPosition_spec_witness :
  (Windows.getPosition (helperEnds (Exited (Some 0) "{}" "") midSong)
                       (Windows.mkService true None ∅) freshHost).1
  = Some (JS.Num 65).
Proof.
  eapply (proj1 (windows_getPosition_spec
                   (helperEnds (Exited (Some 0) "{}" "") midSong)
                   (Windows.mkService true None ∅) freshHost));
    [reflexivity | reflexivity | discriminate].
Defined.

Lemma probe_spec_witness :
  Linux.isPlayerctlAvailable
    (Linux.checkPlayerctlAvailability (helperEnds (Exited (Some 0) "v2.4.1" "") atStart)
                                      (Linux.mkService false None ∅) freshHost).1 = true
  /\ Windows.isWinKlangAvailable
       (Windows.checkWinKlangAvailability (helperEnds (Exited (Some 0) "{}" "") atStart)
                                          (Windows.mkService true None ∅) freshHost).1
     = false.
Proof.
  destruct (probe_spec (helperEnds (Exited (Some 0) "v2.4.1" "") atStart) freshHost)
    as [HL _].
  destruct (probe_spec (helperEnds (Exited (Some 0) "{}" "") atStart) freshHost)
    as [_ HW].
  split.
  - apply (proj1 (HL (Linux.mkService false None ∅))). do 2 eexists. reflexivity.
  - apply (proj1 (HW (Windows.mkService true None ∅))). reflexivity.
Defined.

(* ===================================================================== *)
(** * More on the command dispatcher *)
(* ===================================================================== *)

Section MoreDispatch.
Context (P : Platform).

(** On an available Linux service each of the three controls starts
    exactly one child, playerctl with the word of the control, shows no
    message box, and when the child exits it resolves exactly when the
    exit code is 0. *)
Theorem linux_control_spec (this : Linux.Service) (h : Host) :
  Linux.isPlayerctlAvailable this = true ->
  Forall (fun '(op, word) =>
            (op this h).2 = started ["playerctl"; word] h
            /\ forall code out err,
                helper P (length (spawned h)) ["playerctl"; word] = Exited code out err ->
                ((op this h).1 = Fulfilled tt <-> code = Some 0))
         [(Linux.playPause P, "play-pause"); (Linux.next P, "next");
          (Linux.previous P, "previous")].
Proof.
  intros Ha.
  constructor; [|constructor; [|constructor; [|constructor]]].
  all: unfold Linux.playPause, Linux.next, Linux.previous, bind, spawn, ret;
    rewrite Ha; simpl; (split; [reflexivity|]).
  all: intros code out err ->; rewrite <- isZero_true;
    destruct (isZero code); split; congruence.
Qed.

(** On an available Windows service each of the three controls starts
    exactly one child, the helper with the flag of the control.  An exit
    with code 0 resolves and shows nothing; a helper that cannot be
    started rejects with its error message; and play/pause rejects on
    every other exit code with an error that carries the code, whatever
    the helper printed, and shows nothing. *)
Theorem windows_control_spec (this : Windows.Service) (h : Host) :
  Windows.isWinKlangAvailable this = true ->
  Forall (fun '(op, flag, name) =>
            spawned (op this h).2 = spawned h ++ [[winKlangPath P; flag]]
            /\ (forall out err,
                   helper P (length (spawned h)) [winKlangPath P; flag]
                     = Exited (Some 0) out err ->
                   op this h = (Fulfilled tt, started [winKlangPath P; flag] h))
            /\ (forall message,
                   helper P (length (spawned h)) [winKlangPath P; flag]
                     = SpawnFailed message ->
                   op this h = (Rejected ("WinKlang " +:+ name +:+ " error: " +:+ message),
                                started [winKlangPath P; flag] h)))
         [(Windows.playPause P, "--play-pause", "play-pause");
          (Windows.next P, "--next", "next");
          (Windows.previous P, "--prev", "previous")]
  /\ forall code out err,
      helper P (length (spawned h)) [winKlangPath P; "--play-pause"]
        = Exited code out err ->
      code <> Some 0 ->
      Windows.playPause P this h
      = (Rejected ("WinKlang play-pause failed with code " +:+ showCode code),
         started [winKlangPath P; "--play-pause"] h).
Proof.
  intros Ha. split.
  - constructor; [|constructor; [|constructor; [|constructor]]].
    all: unfold Windows.playPause, Windows.next, Windows.previous, bind, spawn,
        showMessage, ret;
      rewrite Ha; simpl.
    all: split; [|split; [intros out err ->; reflexivity
                         |intros message ->; reflexivity]].
    all: try reflexivity.
    all: destruct (helper P _ _) as [code out err|msg]; try reflexivity.
    all: destruct (isZero code); try reflexivity.
    all: destruct (JS.includes err "not available"); reflexivity.
  - intros code out err Hh Hc. apply isZero_false in Hc.
    unfold Windows.playPause, bind, spawn, ret. rewrite Ha. simpl.
    rewrite Hh, Hc. reflexivity.
Qed.

End MoreDispatch.

Lemma linux_control_spec_witness :
  (Linux.next (helperEnds (Exited (Some 0) "" "") atStart)
              (Linux.mkService true None ∅) freshHost).1 = Fulfilled tt.
Proof.
  pose proof (linux_control_spec (helperEnds (Exited (Some 0) "" "") atStart)
                                 (Linux.mkService true None ∅) freshHost eq_refl) as H.
  apply Forall_cons_1 in H as [_ H]. apply Forall_cons_1 in H as [[_ H] _].
  apply (H (Some 0) "" "" eq_refl). reflexivity.
Defined.

Lemma windows_control_spec_witness :
  Windows.playPause (helperEnds (Exited (Some 3) "" "Play is not available") atStart)
                    (Windows.mkService true None ∅) freshHost
  = (Rejected "WinKlang play-pause failed with code 3",
     started ["/ext/dist/src/windows/WinKlang.exe"; "--play-pause"] freshHost).
Proof.
  apply (proj2 (windows_control_spec
                  (helperEnds (Exited (Some 3) "" "Play is not available") atStart)
                  (Windows.mkService true None ∅) freshHost eq_refl)
               (Some 3) "" "Play is not available" eq_refl).
  discriminate.
Defined.

(* ===================================================================== *)
(** * More on the artwork resolvers *)
(* ===================================================================== *)

(** Unfold one layer of the host operations of any of the four resolvers. *)
Ltac res_step :=
  cbv beta iota delta
    [bind ret existsSync copyFileSync httpGet writeEntry mkdirSync Date_now
     Linux.ensureUploadsDir Linux.downloadFile
     WindowsPolling.ensureUploadsDir WindowsPolling.downloadFile
     ArtworkUtil.getArtworkDirectory ArtworkUtil.handleFileUrl ArtworkUtil.handleHttpUrl
     WindowsController.artworkDirectory];
  cbn [fst snd negb andb orb].

(** Split on an innermost test of the goal. *)
Ltac res_case :=
  match goal with
  | |- context [match ?x with _ => _ end] =>
      lazymatch x with
      | context [match _ with _ => _ end] => fail
      | _ => destruct x eqn:?
      end
  end; res_step.

Ltac res_cases := res_step; repeat res_case.

Section MoreArtwork.
Context (P : Platform).

(** A resolve that does not answer a path leaves the controller as it
    was: nothing is cached for a locator that failed, on any of the four
    resolvers and for every way the transfer can end. *)
Theorem failed_resolve_keeps_state (url : string) (h : Host) :
  (forall this,
      (forall p, (Linux.downloadArtwork P this url h).1.1 <> Fulfilled (Some p)) ->
      (Linux.downloadArtwork P this url h).1.2 = this)
  /\ (forall this,
      (forall p, (WindowsPolling.downloadArtwork P this url h).1.1 <> Fulfilled (Some p)) ->
      (WindowsPolling.downloadArtwork P this url h).1.2 = this)
  /\ (forall this,
      (forall p, (ArtworkUtil.downloadArtwork P this url h).1.1 <> Fulfilled (Some p)) ->
      (ArtworkUtil.downloadArtwork P this url h).1.2 = this)
  /\ (forall this,
      (forall p, (WindowsController.downloadArtwork P this url h).1.1
                 <> Fulfilled (Some p)) ->
      (WindowsController.downloadArtwork P this url h).1.2 = this).
Proof.
  repeat split; intros this;
    unfold Linux.downloadArtwork, WindowsPolling.downloadArtwork,
      ArtworkUtil.downloadArtwork, WindowsController.downloadArtwork;
    res_cases; intros H; try reflexivity.
  all: exfalso; eapply H; reflexivity.
Qed.

(** A resolve never removes or replaces an entry of the artwork cache,
    and touches no entry but the one of the locator it resolves; the
    other fields of the controller are left as they were. *)
Theorem resolve_cache_frame (url : string) (h : Host) :
  (forall this,
      let this1 := (Linux.downloadArtwork P this url h).1.2 in
      (forall k v, Linux.artworkCache this !! k = Some v ->
                   Linux.artworkCache this1 !! k = Some v)
      /\ (forall k, k <> url -> Linux.artworkCache this1 !! k = Linux.artworkCache this !! k)
      /\ Linux.isPlayerctlAvailable this1 = Linux.isPlayerctlAvailable this
      /\ Linux.currentTrack this1 = Linux.currentTrack this)
  /\ (forall this,
      let this1 := (WindowsPolling.downloadArtwork P this url h).1.2 in
      (forall k v, Windows.artworkCache this !! k = Some v ->
                   Windows.artworkCache this1 !! k = Some v)
      /\ (forall k, k <> url ->
                    Windows.artworkCache this1 !! k = Windows.artworkCache this !! k)
      /\ Windows.isWinKlangAvailable this1 = Windows.isWinKlangAvailable this
      /\ Windows.currentTrack this1 = Windows.currentTrack this)
  /\ (forall this,
      let this1 := (ArtworkUtil.downloadArtwork P this url h).1.2 in
      (forall k v, ArtworkUtil.artworkCache this !! k = Some v ->
                   ArtworkUtil.artworkCache this1 !! k = Some v)
      /\ (forall k, k <> url ->
                    ArtworkUtil.artworkCache this1 !! k = ArtworkUtil.artworkCache this !! k)
      /\ ArtworkUtil.extensionContext this1 = ArtworkUtil.extensionContext this)
  /\ (forall this,
      let this1 := (WindowsController.downloadArtwork P this url h).1.2 in
      (forall k v, WindowsController.artworkCache this !! k = Some v ->
                   WindowsController.artworkCache this1 !! k = Some v)
      /\ (forall k, k <> url ->
                    WindowsController.artworkCache this1 !! k
                    = WindowsController.artworkCache this !! k)
      /\ WindowsController.musicService this1 = WindowsController.musicService this).
Proof.
  repeat apply conj; intros this;
    unfold Linux.downloadArtwork, WindowsPolling.downloadArtwork,
      ArtworkUtil.downloadArtwork, WindowsController.downloadArtwork;
    res_cases; cbv zeta; repeat apply conj; try reflexivity; try (intros; assumption).
  all: unfold Linux.cacheSet, WindowsPolling.cacheSet, ArtworkUtil.cacheSet,
         WindowsController.cacheSet; cbn [Linux.artworkCache Windows.artworkCache
         ArtworkUtil.artworkCache WindowsController.artworkCache].
  all: try (intros k Hk; apply lookup_insert_ne; congruence).
  all: intros k v Hk; destruct (decide (url = k)) as [<-|Hne];
    [congruence | rewrite lookup_insert_ne by exact Hne; exact Hk].
Qed.

(** Resolves that touch nothing.  With no cached entry, a locator that is
    empty, or of a scheme the resolver does not handle, or a file locator
    whose source is not on disk, is answered null with the host and the
    controller as they were; so is every locator on a utility that was
    not initialized.  The services take every locator that starts with
    "http" for a web locator; the utility and the controller want
    "http://" or "https://". *)
Theorem resolve_without_io (url : string) (h : Host) :
  (forall this,
      Linux.artworkCache this !! url = None ->
      url = ""
      \/ (JS.startsWith url "file://" = false /\ JS.startsWith url "http" = false)
      \/ (JS.startsWith url "file://" = true
          /\ disk h !! JS.replace url "file://" "" = None) ->
      Linux.downloadArtwork P this url h = ((Fulfilled None, this), h))
  /\ (forall this,
      Windows.artworkCache this !! url = None ->
      url = ""
      \/ (JS.startsWith url "file://" = false /\ JS.startsWith url "http" = false)
      \/ (JS.startsWith url "file://" = true
          /\ disk h !! JS.replace url "file://" "" = None) ->
      WindowsPolling.downloadArtwork P this url h = ((Fulfilled None, this), h))
  /\ (forall this,
      ArtworkUtil.extensionContext this = false
      \/ url = ""
      \/ (ArtworkUtil.artworkCache this !! url = None
          /\ ((JS.startsWith url "file://" = false /\ JS.startsWith url "http://" = false
               /\ JS.startsWith url "https://" = false)
              \/ (JS.startsWith url "file://" = true
                  /\ disk h !! JS.replace url "file://" "" = None))) ->
      ArtworkUtil.downloadArtwork P this url h = ((Fulfilled None, this), h))
  /\ (forall this,
      WindowsController.artworkCache this !! url = None ->
      (JS.startsWith url "file://" = false /\ JS.startsWith url "http://" = false
       /\ JS.startsWith url "https://" = false)
      \/ (JS.startsWith url "file://" = true
          /\ disk h !! JS.replace url "file://" "" = None) ->
      WindowsController.downloadArtwork P this url h = ((Fulfilled None, this), h)).
Proof.
  repeat apply conj; intros this.
  - intros Hc [->|[[Hf Hh]|[Hf Hd]]]; [reflexivity|..];
      unfold Linux.downloadArtwork; rewrite Hc, Hf;
      destruct (String.eqb url ""); try reflexivity.
    + rewrite Hh. reflexivity.
    + res_step. rewrite Hd. reflexivity.
  - intros Hc [->|[[Hf Hh]|[Hf Hd]]]; [reflexivity|..];
      unfold WindowsPolling.downloadArtwork; rewrite Hc, Hf;
      destruct (String.eqb url ""); try reflexivity.
    + rewrite Hh. reflexivity.
    + res_step. rewrite Hd. reflexivity.
  - unfold ArtworkUtil.downloadArtwork.
    intros [He|[->|[Hc [(Hf & H1 & H2)|[Hf Hd]]]]].
    + rewrite He, orb_true_r. reflexivity.
    + reflexivity.
    + rewrite Hc, Hf, H1, H2. destruct (_ || _); reflexivity.
    + rewrite Hc, Hf. destruct (_ || _); [reflexivity|].
      res_step. rewrite Hd. reflexivity.
  - unfold WindowsController.downloadArtwork.
    intros Hc [(Hf & H1 & H2)|[Hf Hd]]; rewrite Hc, Hf.
    + rewrite H1, H2. reflexivity.
    + res_step. rewrite Hd. reflexivity.
Qed.

(** The resolver of the two services never looks for an earlier download
    on disk.  A web locator that is not cached is resolved with no copy
    and at most one GET, and it is answered a path only after a GET of
    that locator that came back 200 with the body streamed to its end;
    the path then names a whole file and is cached. *)
Theorem service_web_resolve (url : string) (h : Host) :
  url <> "" ->
  JS.startsWith url "file://" = false ->
  JS.startsWith url "http" = true ->
  (forall this,
      Linux.artworkCache this !! url = None ->
      let r := Linux.downloadArtwork P this url h in
      copies r.2 = copies h
      /\ (length (requests r.2) <= length (requests h) + 1)%nat
      /\ forall p,
          r.1.1 = Fulfilled (Some p) ->
          requests r.2 = requests h ++ [url]
          /\ fetch P (length (requests h)) url = Response 200 Complete
          /\ Linux.artworkCache r.1.2 !! url = Some p
          /\ exists path, p = uri_resource P path /\ disk r.2 !! path = Some (File true))
  /\ (forall this,
      Windows.artworkCache this !! url = None ->
      let r := WindowsPolling.downloadArtwork P this url h in
      copies r.2 = copies h
      /\ (length (requests r.2) <= length (requests h) + 1)%nat
      /\ forall p,
          r.1.1 = Fulfilled (Some p) ->
          requests r.2 = requests h ++ [url]
          /\ fetch P (length (requests h)) url = Response 200 Complete
          /\ Windows.artworkCache r.1.2 !! url = Some p
          /\ exists path, p = uri_resource P path /\ disk r.2 !! path = Some (File true)).
Proof.
  intros Hu Hf Hh. apply String.eqb_neq in Hu.
  split; intros this Hc r; subst r;
    unfold Linux.downloadArtwork, WindowsPolling.downloadArtwork;
    rewrite Hu, Hc, Hf, Hh; res_cases; cbn [requests copies disk].
  all: split; [reflexivity|];
    split; [rewrite length_app; simpl; lia|]; intros p Hp; try discriminate Hp.
  all: injection Hp as <-.
  all: match goal with H : (_ =? 200) = true |- _ => apply Z.eqb_eq in H; subst end.
  all: cbn [requests now] in *.
  all: split; [reflexivity|].
  all: split; [first [assumption | reflexivity]|]; split;
    [unfold Linux.cacheSet, WindowsPolling.cacheSet; simpl; apply lookup_insert_eq|].
  all: eexists; split; [reflexivity | apply lookup_insert_eq].
Qed.

(** An entry is on the disk after some writes when it was written or was
    there before. *)
Ltac on_disk :=
  repeat match goal with
         | H : bool_decide _ = true |- _ => apply bool_decide_eq_true in H
         | H : negb (bool_decide _) = false |- _ =>
             apply negb_false_iff, bool_decide_eq_true in H
         | H : _ !! _ = Some _ |- _ => apply mk_is_Some in H
         end;
  cbn [disk] in *; rewrite ?lookup_insert_is_Some' in *; intuition eauto.

(** What the utility has resolved it finds again on disk: after a resolve
    that answered a path for a locator that was not cached, a resolve of
    the same locator on a cleared cache answers the same path and leaves
    the host as it is, without a transfer. *)
Theorem util_disk_reuse (this this1 : ArtworkUtil.Util) (url p : string) (h h1 : Host) :
  ArtworkUtil.artworkCache this !! url = None ->
  ArtworkUtil.downloadArtwork P this url h = ((Fulfilled (Some p), this1), h1) ->
  ArtworkUtil.downloadArtwork P (ArtworkCache.clearCache this1) url h1
  = ((Fulfilled (Some p), ArtworkUtil.cacheSet (ArtworkCache.clearCache this1) url p), h1).
Proof.
  intros Hc. unfold ArtworkUtil.downloadArtwork at 1.
  destruct (String.eqb url "") eqn:Eu; [discriminate|].
  destruct (ArtworkUtil.extensionContext this) eqn:Ee; [|discriminate].
  cbn [orb negb]. rewrite Hc.
  res_cases; try discriminate; intros [= <- <- <-].
  all: unfold ArtworkUtil.downloadArtwork, ArtworkCache.clearCache, ArtworkUtil.cacheSet;
    cbn [ArtworkUtil.extensionContext ArtworkUtil.artworkCache];
    rewrite Eu, Ee, lookup_empty; cbn [orb negb].
  all: repeat match goal with
              | H : ?b = _ |- context [if ?b then _ else _] => rewrite H
              end.
  all: res_step.
  all: repeat (rewrite bool_decide_eq_true_2 by on_disk; res_step).
  all: reflexivity.
Qed.

(** The controller finds its downloads again in the same way: after a
    resolve that answered a path for a locator that was not cached, a new
    controller with an empty cache answers the same path for that locator
    and leaves the host as it is. *)
Theorem controller_disk_reuse (this this1 : WindowsController.Controller)
    (url p : string) (h h1 : Host) (service : Windows.Service) :
  WindowsController.artworkCache this !! url = None ->
  WindowsController.downloadArtwork P this url h = ((Fulfilled (Some p), this1), h1) ->
  WindowsController.downloadArtwork P (WindowsController.mkController service ∅) url h1
  = ((Fulfilled (Some p),
      WindowsController.cacheSet (WindowsController.mkController service ∅) url p), h1).
Proof.
  intros Hc. unfold WindowsController.downloadArtwork at 1. rewrite Hc.
  res_cases; try discriminate; intros [= <- <- <-].
  all: unfold WindowsController.downloadArtwork, WindowsController.cacheSet;
    cbn [WindowsController.artworkCache WindowsController.musicService];
    rewrite lookup_empty.
  all: repeat match goal with
              | H : ?b = _ |- context [if ?b then _ else _] => rewrite H
              end.
  all: res_step.
  all: repeat (rewrite bool_decide_eq_true_2 by on_disk; res_step).
  all: reflexivity.
Qed.

Lemma controller_first_resolve this url h p this1 h1 :
  WindowsController.downloadArtwork P this url h = ((Fulfilled (Some p), this1), h1) ->
  WindowsController.artworkCache this1 !! url = Some p.
Proof.
  unfold WindowsController.downloadArtwork.
  res_cases; try discriminate; intros [= <- <- <-]; try assumption.
  all: unfold WindowsController.cacheSet; simpl; apply lookup_insert_eq.
Qed.

Lemma controller_never_rejects this url h message :
  (WindowsController.downloadArtwork P this url h).1.1 <> Rejected message.
Proof.
  unfold WindowsController.downloadArtwork. res_cases; discriminate.
Qed.

Section ArtworkUri.
Context (asWebviewUri : string -> string).

(** [getArtworkUri] of the controller never rejects.  The empty locator
    is answered the empty string with nothing touched; a resolve that
    answers null gives the empty string; and an answer that is not empty
    is the webview form of the path now cached for the locator. *)
Theorem getArtworkUri_spec (this : WindowsController.Controller) (url : string) (h : Host) :
  let r := WindowsController.getArtworkUri P asWebviewUri this url h in
  (url = "" -> r = ((Fulfilled "", this), h))
  /\ (forall message, r.1.1 <> Rejected message)
  /\ (url <> "" ->
      (WindowsController.downloadArtwork P this url h).1.1 = Fulfilled None ->
      r.1.1 = Fulfilled "")
  /\ (forall s,
      r.1.1 = Fulfilled s -> s <> "" ->
      exists p, WindowsController.artworkCache r.1.2 !! url = Some p
                /\ s = asWebviewUri p).
Proof.
  intros r. subst r. unfold WindowsController.getArtworkUri.
  destruct (String.eqb url "") eqn:Eu.
  - apply String.eqb_eq in Eu. subst url. unfold ret. simpl.
    repeat split; try discriminate; try congruence.
  - apply String.eqb_neq in Eu. unfold bind, ret.
    pose proof (controller_first_resolve this url h) as Hfirst.
    pose proof (controller_never_rejects this url h) as Hrej.
    destruct (WindowsController.downloadArtwork P this url h) as [[o this1] h1].
    simpl in *.
    destruct o as [[p|]|m|]; simpl.
    + destruct (String.eqb p "") eqn:Ep; simpl;
        (repeat split; try discriminate; try congruence).
      intros s [= <-] Hs. exists p. split; [|reflexivity].
        eapply Hfirst. reflexivity.
    + repeat split; try discriminate; try congruence.
    + exfalso. eapply Hrej. reflexivity.
    + repeat split; try discriminate; try congruence.
Qed.

End ArtworkUri.

End MoreArtwork.

Lemma failed_resolve_keeps_state_witness :
  (ArtworkUtil.downloadArtwork
     (stubPlatform (fun _ _ => SpawnFailed "ENOENT") flaky atStart)
     (ArtworkUtil.mkUtil {["http://host/old.jpg" := "file:///old"]} true)
     "http://host/cover.jpg" freshHost).1.2
  = ArtworkUtil.mkUtil {["http://host/old.jpg" := "file:///old"]} true.
Proof.
  apply (proj1 (proj2 (proj2 (failed_resolve_keeps_state
                                (stubPlatform (fun _ _ => SpawnFailed "ENOENT") flaky atStart)
                                "http://host/cover.jpg" freshHost)))).
  intros p. vm_compute. discriminate.
Defined.

Lemma resolve_cache_frame_witness :
  Linux.artworkCache
    (Linux.downloadArtwork
       (stubPlatform (fun _ _ => SpawnFailed "ENOENT") onceOnly atStart)
       (Linux.mkService true None {["http://host/old.jpg" := "vscode-resource:///old"]})
       "http://host/cover.jpg" freshHost).1.2
  !! "http://host/old.jpg"
  = Some "vscode-resource:///old".
Proof.
  apply (proj1 (proj1 (resolve_cache_frame
                         (stubPlatform (fun _ _ => SpawnFailed "ENOENT") onceOnly atStart)
                         "http://host/cover.jpg" freshHost)
                      (Linux.mkService true None
                         {["http://host/old.jpg" := "vscode-resource:///old"]}))).
  reflexivity.
Defined.

Lemma resolve_without_io_witness :
  Linux.downloadArtwork (stubPlatform (fun _ _ => SpawnFailed "ENOENT") onceOnly atStart)
                        (Linux.mkService true None ∅) "data:image/png;base64,AAAA" freshHost
  = ((Fulfilled None, Linux.mkService true None ∅), freshHost).
Proof.
  apply (proj1 (resolve_without_io
                  (stubPlatform (fun _ _ => SpawnFailed "ENOENT") onceOnly atStart)
                  "data:image/png;base64,AAAA" freshHost)).
  - reflexivity.
  - right. left. split; reflexivity.
Defined.

Lemma service_web_resolve_witness :
  let P := stubPlatform (fun _ _ => SpawnFailed "ENOENT") onceOnly atStart in
  let r := Linux.downloadArtwork P (Linux.mkService true None ∅)
                                 "http://host/cover.jpg" freshHost in
  requests r.2 = ["http://host/cover.jpg"]
  /\ Linux.artworkCache r.1.2 !! "http://host/cover.jpg"
     = Some "vscode-resource:///storage/uploads/artwork_0.jpg".
Proof.
  intros P r.
  destruct (service_web_resolve P "http://host/cover.jpg" freshHost) as [HL _];
    [discriminate | reflexivity | reflexivity |].
  assert (H0 := HL (Linux.mkService true None ∅)). cbv zeta in H0.
  destruct H0 as (_ & _ & H); [reflexivity|].
  destruct (H "vscode-resource:///storage/uploads/artwork_0.jpg")
    as (Hr & _ & Hc & _); [reflexivity|].
  split; [exact Hr | exact Hc].
Defined.

Lemma util_disk_reuse_witness :
  let P := stubPlatform (fun _ _ => SpawnFailed "ENOENT") onceOnly atStart in
  let first := ArtworkUtil.downloadArtwork
                 P (ArtworkUtil.mkUtil ∅ true) "http://host/cover.jpg" freshHost in
  (ArtworkUtil.downloadArtwork P (ArtworkCache.clearCache first.1.2)
                               "http://host/cover.jpg" first.2).1.1
  = Fulfilled (Some "file:///storage/artwork/artwork_http:__host_cover.jpg.jpg").
Proof.
  intros P first.
  erewrite (util_disk_reuse P (ArtworkUtil.mkUtil ∅ true) first.1.2 "http://host/cover.jpg"
              "file:///storage/artwork/artwork_http:__host_cover.jpg.jpg"
              freshHost first.2); reflexivity.
Defined.

Lemma controller_disk_reuse_witness :
  let P := stubPlatform (fun _ _ => SpawnFailed "ENOENT") onceOnly atStart in
  let first := WindowsController.downloadArtwork
                 P (WindowsController.mkController (Windows.mkService true None ∅) ∅)
                 "http://host/cover.jpg" freshHost in
  (WindowsController.downloadArtwork
     P (WindowsController.mkController (Windows.mkService false None ∅) ∅)
     "http://host/cover.jpg" first.2).1.1
  = Fulfilled (Some "/storage/artwork/artwork_http:__host_cover.jpg.jpg").
Proof.
  intros P first.
  erewrite (controller_disk_reuse
              P (WindowsController.mkController (Windows.mkService true None ∅) ∅)
              first.1.2 "http://host/cover.jpg"
              "/storage/artwork/artwork_http:__host_cover.jpg.jpg"
              freshHost first.2 (Windows.mkService false None ∅)); reflexivity.
Defined.

Lemma getArtworkUri_spec_witness :
  let P := stubPlatform (fun _ _ => SpawnFailed "ENOENT") flaky atStart in
  let this := WindowsController.mkController (Windows.mkService true None ∅) ∅ in
  WindowsController.getArtworkUri P webviewForm this "" freshHost
  = ((Fulfilled "", this), freshHost)
  /\ (WindowsController.getArtworkUri P webviewForm this "http://host/cover.jpg"
                                      freshHost).1.1 = Fulfilled "".
Proof.
  intros P this.
  destruct (getArtworkUri_spec P webviewForm this "" freshHost) as [H0 _].
  destruct (getArtworkUri_spec P webviewForm this "http://host/cover.jpg" freshHost)
    as (_ & _ & H1 & _).
  split; [apply H0; reflexivity | apply H1; [discriminate | reflexivity]].
Defined.

(* ===================================================================== *)
(** * The polling loops *)
(* ===================================================================== *)

Lemma withArtUrl_same (t : TrackInfo) : withArtUrl t (artUrl t) = t.
Proof. destruct t; reflexivity. Qed.

Section Polling.
Context (P : Platform).

Lemma linux_never_rejects this url h message :
  (Linux.downloadArtwork P this url h).1.1 <> Rejected message.
Proof. unfold Linux.downloadArtwork. res_cases; discriminate. Qed.

Lemma windows_never_rejects this url h message :
  (WindowsPolling.downloadArtwork P this url h).1.1 <> Rejected message.
Proof. unfold WindowsPolling.downloadArtwork. res_cases; discriminate. Qed.

Lemma windows_first_resolve this url h p this1 h1 :
  WindowsPolling.downloadArtwork P this url h = ((Fulfilled (Some p), this1), h1) ->
  Windows.artworkCache this1 !! url = Some p.
Proof.
  unfold WindowsPolling.downloadArtwork.
  res_cases; try discriminate; intros [= <- <- <-]; try assumption.
  all: unfold WindowsPolling.cacheSet; simpl; apply lookup_insert_eq.
Qed.

Lemma linux_resolve_flags this url h :
  Linux.isPlayerctlAvailable (Linux.downloadArtwork P this url h).1.2
  = Linux.isPlayerctlAvailable this
  /\ Linux.currentTrack (Linux.downloadArtwork P this url h).1.2 = Linux.currentTrack this.
Proof. unfold Linux.downloadArtwork. res_cases; split; reflexivity. Qed.

Lemma windows_resolve_flags this url h :
  Windows.isWinKlangAvailable (WindowsPolling.downloadArtwork P this url h).1.2
  = Windows.isWinKlangAvailable this
  /\ Windows.currentTrack (WindowsPolling.downloadArtwork P this url h).1.2
     = Windows.currentTrack this.
Proof. unfold WindowsPolling.downloadArtwork. res_cases; split; reflexivity. Qed.

(** What a run of the Linux loop leaves behind, by the outcome of its
    sample: the stored track and what the subscribers were told. *)
Lemma linux_poll_outcome this h o this1 h1 :
  LinuxPolling.pollOnce P this h = ((o, this1), h1) ->
  Linux.isPlayerctlAvailable this1 = Linux.isPlayerctlAvailable this
  /\ if hasTrackChanged (Linux.currentTrack this) (Linux.getCurrentTrack P this h).1
     then match (Linux.getCurrentTrack P this h).1 with
          | None => o = Fulfilled [None] /\ Linux.currentTrack this1 = None
          | Some t =>
              (o = Pending /\ Linux.currentTrack this1 = Some t)
              \/ exists a,
                  o = Fulfilled [Some (withArtUrl t a)]
                  /\ Linux.currentTrack this1 = Some (withArtUrl t a)
                  /\ (a = artUrl t
                      \/ (a <> "" /\ Linux.artworkCache this1 !! artUrl t = Some a))
          end
     else o = Fulfilled [] /\ this1 = this /\ h1 = (Linux.getCurrentTrack P this h).2.
Proof.
  unfold LinuxPolling.pollOnce, bind.
  destruct (Linux.getCurrentTrack P this h) as [sample hs]. cbn [fst snd].
  destruct (hasTrackChanged (Linux.currentTrack this) sample);
    [|intros [= <- <- <-]; auto].
  destruct sample as [t|]; [|intros [= <- <- <-]; auto].
  destruct (String.eqb (artUrl t) "") eqn:Ea; cbn [negb].
  { intros [= <- <- <-]. split; [reflexivity|]. right. exists (artUrl t).
    rewrite withArtUrl_same. auto. }
  pose proof (linux_never_rejects
                (Linux.mkService (Linux.isPlayerctlAvailable this) (Some t)
                                 (Linux.artworkCache this)) (artUrl t) hs) as Hrej.
  pose proof (linux_first_resolve P
                (Linux.mkService (Linux.isPlayerctlAvailable this) (Some t)
                                 (Linux.artworkCache this)) (artUrl t) hs) as Hfirst.
  pose proof (linux_resolve_flags
                (Linux.mkService (Linux.isPlayerctlAvailable this) (Some t)
                                 (Linux.artworkCache this)) (artUrl t) hs) as [Hav Hct].
  destruct (Linux.downloadArtwork P _ (artUrl t) hs) as [[d this2] h2].
  cbn [fst snd] in *. simpl in Hav, Hct. unfold ret.
  destruct d as [[p|]|m|]; intros [= <- <- <-]; cbn [Linux.isPlayerctlAvailable
    Linux.currentTrack Linux.artworkCache].
  - split; [exact Hav|]. right.
    destruct (String.eqb p "") eqn:Ep.
    + exists (artUrl t). rewrite withArtUrl_same. auto.
    + exists p. apply String.eqb_neq in Ep.
      destruct (Hfirst p this2 h2 eq_refl) as (_ & Hc & _). auto.
  - split; [exact Hav|]. right. exists (artUrl t). rewrite withArtUrl_same. auto.
  - exfalso. eapply Hrej. reflexivity.
  - split; [exact Hav|]. left. auto.
Qed.

Lemma windows_poll_outcome this h o this1 h1 :
  WindowsPolling.pollOnce P this h = ((o, this1), h1) ->
  Windows.isWinKlangAvailable this1 = Windows.isWinKlangAvailable this
  /\ if hasTrackChanged (Windows.currentTrack this) (Windows.getCurrentTrack P this h).1
     then match (Windows.getCurrentTrack P this h).1 with
          | None => o = Fulfilled [None] /\ Windows.currentTrack this1 = None
          | Some t =>
              (o = Pending /\ Windows.currentTrack this1 = Some t)
              \/ exists a,
                  o = Fulfilled [Some (withArtUrl t a)]
                  /\ Windows.currentTrack this1 = Some (withArtUrl t a)
                  /\ (a = artUrl t
                      \/ (a <> "" /\ Windows.artworkCache this1 !! artUrl t = Some a))
          end
     else o = Fulfilled [] /\ this1 = this /\ h1 = (Windows.getCurrentTrack P this h).2.
Proof.
  unfold WindowsPolling.pollOnce, bind.
  destruct (Windows.getCurrentTrack P this h) as [sample hs]. cbn [fst snd].
  destruct (hasTrackChanged (Windows.currentTrack this) sample);
    [|intros [= <- <- <-]; auto].
  destruct sample as [t|]; [|intros [= <- <- <-]; auto].
  destruct (String.eqb (artUrl t) "") eqn:Ea; cbn [negb].
  { intros [= <- <- <-]. split; [reflexivity|]. right. exists (artUrl t).
    rewrite withArtUrl_same. auto. }
  pose proof (windows_never_rejects
                (Windows.mkService (Windows.isWinKlangAvailable this) (Some t)
                                   (Windows.artworkCache this)) (artUrl t) hs) as Hrej.
  pose proof (windows_first_resolve
                (Windows.mkService (Windows.isWinKlangAvailable this) (Some t)
                                   (Windows.artworkCache this)) (artUrl t) hs) as Hfirst.
  pose proof (windows_resolve_flags
                (Windows.mkService (Windows.isWinKlangAvailable this) (Some t)
                                   (Windows.artworkCache this)) (artUrl t) hs) as [Hav Hct].
  destruct (WindowsPolling.downloadArtwork P _ (artUrl t) hs) as [[d this2] h2].
  cbn [fst snd] in *. simpl in Hav, Hct. unfold ret.
  destruct d as [[p|]|m|]; intros [= <- <- <-]; cbn [Windows.isWinKlangAvailable
    Windows.currentTrack Windows.artworkCache].
  - split; [exact Hav|]. right.
    destruct (String.eqb p "") eqn:Ep.
    + exists (artUrl t). rewrite withArtUrl_same. auto.
    + exists p. apply String.eqb_neq in Ep.
      pose proof (Hfirst p this2 h2 eq_refl) as Hc. auto.
  - split; [exact Hav|]. right. exists (artUrl t). rewrite withArtUrl_same. auto.
  - exfalso. eapply Hrej. reflexivity.
  - split; [exact Hav|]. left. auto.
Qed.

Lemma linux_poll_quiet this h :
  hasTrackChanged (Linux.currentTrack this) (Linux.getCurrentTrack P this h).1 = false ->
  LinuxPolling.pollOnce P this h = ((Fulfilled [], this), (Linux.getCurrentTrack P this h).2).
Proof.
  unfold LinuxPolling.pollOnce, bind.
  destruct (Linux.getCurrentTrack P this h) as [sample hs]. cbn [fst snd].
  intros ->. reflexivity.
Qed.

Lemma windows_poll_quiet this h :
  hasTrackChanged (Windows.currentTrack this) (Windows.getCurrentTrack P this h).1 = false ->
  WindowsPolling.pollOnce P this h
  = ((Fulfilled [], this), (Windows.getCurrentTrack P this h).2).
Proof.
  unfold WindowsPolling.pollOnce, bind.
  destruct (Windows.getCurrentTrack P this h) as [sample hs]. cbn [fst snd].
  intros ->. reflexivity.
Qed.

Lemma unchanged_fields (c t : TrackInfo) :
  title c = title t -> artist c = artist t -> status c = status t ->
  Z.abs (JS.orZero (position c) - JS.orZero (position t)) <= 2 ->
  hasTrackChanged (Some c) (Some t) = false.
Proof.
  intros Ht Ha Hs Hp. unfold hasTrackChanged.
  rewrite Ht, Ha, Hs, !String.eqb_refl. simpl. apply Z.ltb_ge. exact Hp.
Qed.


(** A second look at the same sample says nothing.  After any run of
    either loop, finished or still waiting for an artwork download, a run
    that samples the same record tells the subscribers nothing, leaves
    the service as it is and does nothing on the host but sample: the
    rewritten artwork field does not count as a change, and a change
    whose download never settles is never told. *)
Theorem poll_repeat_is_silent :
  (forall this h o this1 h1,
      LinuxPolling.pollOnce P this h = ((o, this1), h1) ->
      (Linux.getCurrentTrack P this1 h1).1 = (Linux.getCurrentTrack P this h).1 ->
      LinuxPolling.pollOnce P this1 h1
      = ((Fulfilled [], this1), (Linux.getCurrentTrack P this1 h1).2))
  /\ (forall this h o this1 h1,
      WindowsPolling.pollOnce P this h = ((o, this1), h1) ->
      (Windows.getCurrentTrack P this1 h1).1 = (Windows.getCurrentTrack P this h).1 ->
      WindowsPolling.pollOnce P this1 h1
      = ((Fulfilled [], this1), (Windows.getCurrentTrack P this1 h1).2)).
Proof.
  split; intros this h o this1 h1 H Hs.
  - apply linux_poll_quiet. rewrite Hs.
    apply linux_poll_outcome in H as [_ H].
    destruct (hasTrackChanged (Linux.currentTrack this) _) eqn:E.
    + destruct (Linux.getCurrentTrack P this h).1 as [t|].
      * destruct H as [[_ ->]|(a & _ & -> & _)].
        -- rewrite <- (withArtUrl_same t) at 1. apply withArtUrl_unchanged.
        -- apply withArtUrl_unchanged.
      * destruct H as [_ ->]. reflexivity.
    + destruct H as (_ & -> & _). exact E.
  - apply windows_poll_quiet. rewrite Hs.
    apply windows_poll_outcome in H as [_ H].
    destruct (hasTrackChanged (Windows.currentTrack this) _) eqn:E.
    + destruct (Windows.getCurrentTrack P this h).1 as [t|].
      * destruct H as [[_ ->]|(a & _ & -> & _)].
        -- rewrite <- (withArtUrl_same t) at 1. apply withArtUrl_unchanged.
        -- apply withArtUrl_unchanged.
      * destruct H as [_ ->]. reflexivity.
    + destruct H as (_ & -> & _). exact E.
Qed.

(** A sample that agrees with the stored record on title, artist and
    status and lies within 2 seconds of it is dropped by either loop: the
    subscribers are told nothing, no artwork is resolved, and the service
    keeps the record it had, with its old album, artwork and position. *)
Theorem poll_drops_small_changes (c t : TrackInfo) (h : Host) :
  title c = title t -> artist c = artist t -> status c = status t ->
  Z.abs (JS.orZero (position c) - JS.orZero (position t)) <= 2 ->
  (forall this,
      Linux.currentTrack this = Some c ->
      (Linux.getCurrentTrack P this h).1 = Some t ->
      LinuxPolling.pollOnce P this h
      = ((Fulfilled [], this), (Linux.getCurrentTrack P this h).2))
  /\ (forall this,
      Windows.currentTrack this = Some c ->
      (Windows.getCurrentTrack P this h).1 = Some t ->
      WindowsPolling.pollOnce P this h
      = ((Fulfilled [], this), (Windows.getCurrentTrack P this h).2)).
Proof.
  intros Ht Ha Hs Hp.
  split; intros this Hc Hsample.
  - apply linux_poll_quiet. rewrite Hc, Hsample. apply unchanged_fields; assumption.
  - apply windows_poll_quiet. rewrite Hc, Hsample. apply unchanged_fields; assumption.
Qed.

(** With the availability flag false a run of either loop starts no
    child: it does nothing when no track is stored, and when one is
    stored it clears it and tells the subscribers null, once. *)
Theorem poll_when_unavailable (h : Host) :
  (forall this,
      Linux.isPlayerctlAvailable this = false ->
      LinuxPolling.pollOnce P this h
      = (match Linux.currentTrack this with
         | Some _ => (Fulfilled [None], Linux.mkService false None (Linux.artworkCache this))
         | None => (Fulfilled [], this)
         end, h))
  /\ (forall this,
      Windows.isWinKlangAvailable this = false ->
      WindowsPolling.pollOnce P this h
      = (match Windows.currentTrack this with
         | Some _ =>
             (Fulfilled [None], Windows.mkService false None (Windows.artworkCache this))
         | None => (Fulfilled [], this)
         end, h)).
Proof.
  split; intros this Ha.
  - unfold LinuxPolling.pollOnce, Linux.getCurrentTrack, bind, ret. rewrite Ha. simpl.
    destruct (Linux.currentTrack this); reflexivity.
  - unfold WindowsPolling.pollOnce, Windows.getCurrentTrack, bind, ret. rewrite Ha. simpl.
    destruct (Windows.currentTrack this); reflexivity.
Qed.

End Polling.


Lemma poll_repeat_is_silent_witness :
  let P := stubPlatform (fun _ _ => Exited (Some 0) "{}" "") onceOnly midSong in
  let run := WindowsPolling.pollOnce P (Windows.mkService true None ∅) freshHost in
  (WindowsPolling.pollOnce P run.1.2 run.2).1 = (Fulfilled [], run.1.2).
Proof.
  intros P run.
  erewrite (proj2 (poll_repeat_is_silent P) (Windows.mkService true None ∅) freshHost
                  run.1.1 run.1.2 run.2); reflexivity.
Defined.

(** The album and the cover change while the song plays on: nothing is
    told and the stored album stays. *)
Lemma poll_drops_small_changes_witness :
  let P := helperEnds (Exited (Some 0) eightFields "") atStart in
  let stored := mkTrackInfo "Song" "file:///tmp/old.png" "Band" "Old album"
                            (Some (JS.Num 200)) (Some (JS.Num 64)) "playing" (Some "vlc") in
  (LinuxPolling.pollOnce P (Linux.mkService true (Some stored) ∅) freshHost).1
  = (Fulfilled [], Linux.mkService true (Some stored) ∅).
Proof.
  intros P stored.
  erewrite (proj1 (poll_drops_small_changes P stored
                     (mkTrackInfo "Song" "file:///tmp/a.png" "Band" "Album"
                                  (Some (JS.Num 200)) (Some (JS.Num 65)) "playing"
                                  (Some "vlc"))
                     freshHost eq_refl eq_refl eq_refl _)
                  (Linux.mkService true (Some stored) ∅)); reflexivity.
  Unshelve. simpl. lia.
Defined.

Lemma poll_when_unavailable_witness :
  let P := helperEnds (SpawnFailed "ENOENT") atStart in
  (LinuxPolling.pollOnce P (Linux.mkService false None ∅) freshHost)
  = ((Fulfilled [], Linux.mkService false None ∅), freshHost).
Proof.
  intros P. apply (proj1 (poll_when_unavailable P freshHost)). reflexivity.
Defined.

(* ===================================================================== *)
(** * The webview provider on the Windows controller *)
(* ===================================================================== *)

Lemma orZero_orNull (n : option JS.number) : JS.orZero (JS.orNull n) = JS.orZero n.
Proof.
  destruct n as [[z|]|]; try reflexivity. simpl.
  destruct (z =? 0) eqn:E; [|reflexivity]. apply Z.eqb_eq in E. subst z. reflexivity.
Qed.

Lemma windows_getPosition_run (P : Platform) this h :
  Windows.isWinKlangAvailable this = true ->
  Windows.getPosition P this h
  = (JS.orNull (match (Windows.getCurrentTrack P this h).1 with
                | Some t => position t
                | None => None
                end),
     (Windows.getCurrentTrack P this h).2).
Proof.
  intros Ha. unfold Windows.getPosition, bind, ret. rewrite Ha. simpl.
  destruct (Windows.getCurrentTrack P this h). reflexivity.
Qed.

Lemma windows_getCurrentTrack_host (P : Platform) this h :
  Windows.isWinKlangAvailable this = true ->
  (Windows.getCurrentTrack P this h).2 = started [winKlangPath P; "--json"] h.
Proof.
  intros Ha. unfold Windows.getCurrentTrack, bind, spawn, ret. rewrite Ha. reflexivity.
Qed.

Section WebviewProvider.
Context (P : Platform) (asWebviewUri : string -> string) (showProgressBar : bool).

(** [updateWebview] on the Windows controller.  A hidden view gets
    nothing and nothing is started.  A visible view with the helper
    unavailable gets the no-track message, again with nothing started.
    With the helper available every update starts it twice, once for the
    track and once more for the position; a message with a track carries
    the record of the first sample, whose title is not empty, the setting
    of the progress bar, and as position the position of the second
    sample, or 0 when the second sample has no track or is at 0. *)
Theorem updateWebview_spec (this : WindowsController.Controller) (h : Host) :
  Webview.updateWebview P asWebviewUri false showProgressBar this h
  = ((Fulfilled [], this), h)
  /\ (WindowsController.isAvailable this = false ->
      Webview.updateWebview P asWebviewUri true showProgressBar this h
      = ((Fulfilled [Webview.NoTrack], this), h))
  /\ (WindowsController.isAvailable this = true ->
      let first := Windows.getCurrentTrack P (WindowsController.musicService this) h in
      let second := Windows.getCurrentTrack P (WindowsController.musicService this) first.2 in
      let r := Webview.updateWebview P asWebviewUri true showProgressBar this h in
      spawned r.2 = spawned h ++ [[winKlangPath P; "--json"]; [winKlangPath P; "--json"]]
      /\ forall track uri pos flag rest,
          r.1.1 = Fulfilled (Webview.UpdateTrack track uri pos flag :: rest) ->
          rest = [] /\ first.1 = Some track /\ title track <> ""
          /\ flag = showProgressBar
          /\ pos = JS.orZero (match second.1 with
                              | Some t => position t
                              | None => None
                              end)).
Proof.
  split; [reflexivity|]. split.
  - unfold WindowsController.isAvailable. intros Ha.
    unfold Webview.updateWebview, bind, ret, WindowsController.getCurrentTrack,
      WindowsController.getPosition, Windows.getCurrentTrack, Windows.getPosition.
    rewrite Ha. reflexivity.
  - unfold WindowsController.isAvailable. intros Ha. cbv zeta.
    unfold Webview.updateWebview, bind, ret, WindowsController.getCurrentTrack,
      WindowsController.getPosition. cbn [negb].
    pose proof (windows_getCurrentTrack_host P (WindowsController.musicService this) h Ha)
      as Hh1.
    destruct (Windows.getCurrentTrack P (WindowsController.musicService this) h)
      as [track h1]. cbn [fst snd] in *. subst h1.
    rewrite (windows_getPosition_run P _ _ Ha).
    rewrite (windows_getCurrentTrack_host P _ _ Ha).
    set (second := Windows.getCurrentTrack P (WindowsController.musicService this) _).
    assert (Hsp : forall (url : string) (c : WindowsController.Controller) (h0 : Host),
               spawned (WindowsController.getArtworkUri P asWebviewUri c url h0).2
               = spawned h0).
    { intros url c h0. unfold WindowsController.getArtworkUri,
        WindowsController.downloadArtwork. res_cases; reflexivity. }
    destruct track as [t|]; cbn [fst snd].
    + destruct (String.eqb (title t) "") eqn:Et; cbn [fst snd].
      * split; [simpl; rewrite <- app_assoc; reflexivity | discriminate].
      * specialize (Hsp (JS.orElse (artUrl t) "") this
                        (started [winKlangPath P; "--json"]
                                 (started [winKlangPath P; "--json"] h))).
        destruct (WindowsController.getArtworkUri P asWebviewUri this _ _)
          as [[o this1] h3]. cbn [fst snd] in *.
        apply String.eqb_neq in Et.
        destruct o as [uri|m|]; cbn [fst snd]; rewrite Hsp.
        all: split; [simpl; rewrite <- app_assoc; reflexivity|].
        all: intros track uri' pos flag rest; try discriminate.
        intros [= <- <- <- <- <-]. rewrite orZero_orNull. auto.
    + split; [simpl; rewrite <- app_assoc; reflexivity | discriminate].
Qed.

(** [handleWebviewMessage] on the Windows controller never rejects.  A
    command it does not know does nothing.  A control sets a refresh for
    later when it resolved, which it also does after the warning of an
    unavailable helper; and when play/pause finds the helper exiting with
    a code other than 0 the user gets one error box that carries the
    code, and no refresh is set. *)
Theorem handleWebviewMessage_spec (visible : bool)
    (this : WindowsController.Controller) (h : Host) :
  (forall command message,
      (Webview.handleWebviewMessage P asWebviewUri visible showProgressBar this command h).1.1
      <> Rejected message)
  /\ (forall command,
      ~ In command ["webviewReady"; "playPause"; "next"; "previous"] ->
      Webview.handleWebviewMessage P asWebviewUri visible showProgressBar this command h
      = ((Fulfilled [], this), h))
  /\ (WindowsController.isAvailable this = false ->
      forall command,
        In command ["playPause"; "next"; "previous"] ->
        Webview.handleWebviewMessage P asWebviewUri visible showProgressBar this command h
        = ((Fulfilled [Webview.RefreshLater], this),
           notified (Warning Windows.notAvailable) h))
  /\ (WindowsController.isAvailable this = true ->
      forall code out err,
        helper P (length (spawned h)) [winKlangPath P; "--play-pause"]
          = Exited code out err ->
        code <> Some 0 ->
        Webview.handleWebviewMessage P asWebviewUri visible showProgressBar this
                                     "playPause" h
        = ((Fulfilled
              [Webview.ErrorBox
                 ("Music control error: Error: WinKlang play-pause failed with code "
                  +:+ showCode code)],
            this),
           started [winKlangPath P; "--play-pause"] h)).
Proof.
  repeat apply conj.
  - intros command message. unfold Webview.handleWebviewMessage, bind, ret.
    destruct (String.eqb command "webviewReady").
    { destruct (Webview.updateWebview P asWebviewUri visible showProgressBar this h)
        as [[o this1] h1]. cbn [fst snd]. destruct o; discriminate. }
    destruct (String.eqb command "playPause").
    { destruct (WindowsController.playPause P this h) as [[| |] h1]; discriminate. }
    destruct (String.eqb command "next").
    { destruct (WindowsController.next P this h) as [[| |] h1]; discriminate. }
    destruct (String.eqb command "previous"); [|discriminate].
    destruct (WindowsController.previous P this h) as [[| |] h1]; discriminate.
  - intros command Hn. unfold Webview.handleWebviewMessage.
    destruct (String.eqb command "webviewReady") eqn:E1;
      [apply String.eqb_eq in E1; subst; exfalso; apply Hn; simpl; auto|].
    destruct (String.eqb command "playPause") eqn:E2;
      [apply String.eqb_eq in E2; subst; exfalso; apply Hn; simpl; auto|].
    destruct (String.eqb command "next") eqn:E3;
      [apply String.eqb_eq in E3; subst; exfalso; apply Hn; simpl; auto|].
    destruct (String.eqb command "previous") eqn:E4;
      [apply String.eqb_eq in E4; subst; exfalso; apply Hn; simpl; auto|].
    reflexivity.
  - unfold WindowsController.isAvailable. intros Ha command Hin.
    simpl in Hin. destruct Hin as [<-|[<-|[<-|[]]]];
      unfold Webview.handleWebviewMessage, WindowsController.playPause,
        WindowsController.next, WindowsController.previous,
        Windows.playPause, Windows.next, Windows.previous, bind, ret, showMessage;
      rewrite Ha; reflexivity.
  - unfold WindowsController.isAvailable. intros Ha code out err Hh Hc.
    apply isZero_false in Hc.
    unfold Webview.handleWebviewMessage, WindowsController.playPause,
      Windows.playPause, bind, ret, spawn. rewrite Ha. simpl. rewrite Hh, Hc.
    reflexivity.
Qed.

End WebviewProvider.

Lemma updateWebview_spec_witness :
  let P := stubPlatform (fun _ _ => Exited (Some 0) "{}" "") onceOnly midSong in
  let this := WindowsController.mkController (Windows.mkService true None ∅) ∅ in
  (Webview.updateWebview P webviewForm true true this freshHost).1.1
  = Fulfilled
      [Webview.UpdateTrack
         (mkTrackInfo "Song" "http://host/cover.jpg" "Band" "Album" (Some (JS.Num 200))
                      (Some (JS.Num 65)) "playing" (Some "Windows Media Session"))
         "https://file+.vscode-resource.vscode-cdn.net/storage/artwork/artwork_http:__host_cover.jpg.jpg"
         65 true]
  /\ (Webview.updateWebview
        P webviewForm true true
        (WindowsController.mkController (Windows.mkService false None ∅) ∅) freshHost)
     = ((Fulfilled [Webview.NoTrack],
         WindowsController.mkController (Windows.mkService false None ∅) ∅), freshHost).
Proof.
  intros P this. split; [reflexivity|].
  apply (proj1 (proj2 (updateWebview_spec
                         P webviewForm true
                         (WindowsController.mkController (Windows.mkService false None ∅) ∅)
                         freshHost))).
  reflexivity.
Defined.

Lemma handleWebviewMessage_spec_witness :
  let P := helperEnds (Exited (Some 2) "" "access denied") atStart in
  let this := WindowsController.mkController (Windows.mkService true None ∅) ∅ in
  (Webview.handleWebviewMessage P webviewForm true true this "playPause" freshHost).1.1
  = Fulfilled
      [Webview.ErrorBox "Music control error: Error: WinKlang play-pause failed with code 2"]
  /\ Webview.handleWebviewMessage P webviewForm true true this "stop" freshHost
     = ((Fulfilled [], this), freshHost).
Proof.
  intros P this.
  destruct (handleWebviewMessage_spec P webviewForm true true this freshHost)
    as (_ & Hunknown & _ & Hfail).
  split.
  - rewrite (Hfail eq_refl (Some 2) "" "access denied" eq_refl); [reflexivity | discriminate].
  - apply Hunknown. simpl. intros [H|[H|[H|[H|[]]]]]; discriminate H.
Defined.

(* ===================================================================== *)
(** * The delimited line, there and back *)
(* ===================================================================== *)

Lemma rev_rev_app (x cur : string) :
  String.rev (String.rev_app x cur) = String.rev cur +:+ x.
Proof.
  revert cur. induction x as [|c x IH]; intros cur; simpl.
  - rewrite append_empty_r. reflexivity.
  - rewrite IH. apply rev_cons_append.
Qed.

Lemma isPrefix_append (p s : string) : JS.isPrefix p (p +:+ s) = true.
Proof.
  induction p as [|a p IH]; [reflexivity|].
  rewrite append_cons. simpl. rewrite Ascii.eqb_refl. exact IH.
Qed.

Lemma drop_append (p s : string) : JS.drop (String.length p) (p +:+ s) = s.
Proof.
  induction p as [|a p IH]; [reflexivity|]. rewrite append_cons. simpl. exact IH.
Qed.

Section SplitOfJoin.
Context (a : ascii) (sep' : string).

Lemma splitGo_piece (f rest cur : string) :
  countChar a f = O ->
  JS.splitGo (String a sep') (f +:+ rest) O cur
  = JS.splitGo (String a sep') rest O (String.rev_app f cur).
Proof.
  revert cur. induction f as [|c f IH]; intros cur Hf; [reflexivity|].
  simpl in Hf. destruct (Ascii.eqb c a) eqn:E; [discriminate|].
  rewrite append_cons. cbn [JS.splitGo JS.isPrefix].
  rewrite Ascii.eqb_sym, E. cbn [andb]. rewrite IH by exact Hf. reflexivity.
Qed.

Lemma splitGo_separator (rest cur : string) :
  JS.splitGo (String a sep') (String a sep' +:+ rest) O cur
  = String.rev cur :: JS.splitGo (String a sep') rest O "".
Proof.
  pose proof (isPrefix_append (String a sep') rest) as Hp.
  rewrite append_cons in *. cbn [JS.splitGo]. rewrite Hp.
  rewrite splitGo_skip. cbn [String.length Nat.sub]. rewrite Nat.sub_0_r, drop_append.
  reflexivity.
Qed.

Lemma splitGo_of_join (x : string) (rest : list string) (cur : string) :
  Forall (fun f => countChar a f = O) (x :: rest) ->
  JS.splitGo (String a sep') (join (String a sep') (x :: rest)) O cur
  = (String.rev cur +:+ x) :: rest.
Proof.
  revert x cur. induction rest as [|y rest IH]; intros x cur Hall.
  - cbn [join]. rewrite <- (append_empty_r x) at 1.
    rewrite splitGo_piece by (inversion Hall; assumption).
    simpl. rewrite rev_rev_app. reflexivity.
  - rewrite join_cons by discriminate.
    inversion Hall as [|? ? Hx Hrest]; subst.
    rewrite splitGo_piece by exact Hx.
    rewrite splitGo_separator, rev_rev_app, IH by exact Hrest.
    reflexivity.
Qed.

End SplitOfJoin.

(** Splitting a line that was joined from pieces gives the pieces back,
    when no piece holds the first code unit of the separator. *)
Theorem split_of_join (a : ascii) (sep' : string) (pieces : list string) :
  pieces <> [] ->
  Forall (fun f => countChar a f = O) pieces ->
  JS.split (join (String a sep') pieces) (String a sep') = pieces.
Proof.
  intros Hne Hall. destruct pieces as [|x rest]; [congruence|].
  unfold JS.split. rewrite splitGo_of_join by exact Hall. reflexivity.
Qed.

(** The delimited line, there and back: a line of eight fields joined by
    "|||", none of which holds a bar, and which has no white space at
    either end, is parsed by the Linux service into the record of those
    eight fields. *)
Theorem delimited_round_trip (fields : list string) :
  length fields = 8%nat ->
  Forall (fun f => countChar "|" f = O) fields ->
  JS.trim (join "|||" fields) = join "|||" fields ->
  LinuxParse.parseOutput (join "|||" fields) = Some (ofFields fields).
Proof.
  intros Hlen Hall Htrim. unfold LinuxParse.parseOutput, LinuxParse.delimiter.
  rewrite Htrim.
  destruct fields as [|x rest]; [discriminate|].
  unfold JS.split. rewrite (splitGo_of_join "|" "||" x rest "" Hall).
  cbn [String.rev String.rev_app]. change ("" +:+ x) with x.
  rewrite Hlen. reflexivity.
Qed.

Lemma split_of_join_witness :
  JS.split (join ":" ["1"; "02"; "03"]) ":" = ["1"; "02"; "03"].
Proof.
  apply (split_of_join ":" "" ["1"; "02"; "03"]); [discriminate|].
  repeat constructor.
Defined.

Lemma delimited_round_trip_witness :
  LinuxParse.parseOutput eightFields
  = Some (ofFields ["Song"; "file:///tmp/a.png"; "Band"; "Album"; "1:05"; "3:20";
                    "Playing"; "vlc"]).
Proof.
  apply (delimited_round_trip ["Song"; "file:///tmp/a.png"; "Band"; "Album"; "1:05";
                               "3:20"; "Playing"; "vlc"]);
    [reflexivity | repeat constructor | reflexivity].
Defined.

(** The status of every record either service samples is in lower case. *)
Theorem sampled_status_is_lower_case (P : Platform) (h : Host) (t : TrackInfo) :
  (forall this, (Linux.getCurrentTrack P this h).1 = Some t ->
                JS.toLowerCase (status t) = status t)
  /\ (forall this, (Windows.getCurrentTrack P this h).1 = Some t ->
                   JS.toLowerCase (status t) = status t).
Proof.
  split; intros this.
  - unfold Linux.getCurrentTrack, bind, spawn, ret.
    destruct (negb _); simpl; [discriminate|].
    destruct (helper P _ _) as [code out err|msg]; [|discriminate].
    destruct (_ && _); [|discriminate].
    unfold LinuxParse.parseOutput. destruct (8 <=? _)%nat; [|discriminate].
    intros [= <-]. cbn [status]. unfold LinuxParse.statusOf.
    destruct (JS.toLowerCase (nth 6 _ "")) eqn:E; [reflexivity|].
    cbn [JS.orElse]. rewrite <- E. apply toLowerCase_idempotent.
  - unfold Windows.getCurrentTrack, bind, spawn, ret.
    destruct (negb _); simpl; [discriminate|].
    destruct (helper P _ _) as [code out err|msg]; [|discriminate].
    destruct (_ && _); [|discriminate].
    destruct (JSON_parse P _) as [| |d]; simpl; try discriminate.
    intros [= <-]. cbn [status].
    pose proof (mapPlaybackStatus_range (default "" (WindowsParse.d_status d))) as Hin.
    simpl in Hin. destruct Hin as [<-|[<-|[<-|[]]]]; reflexivity.
Qed.

Lemma sampled_status_is_lower_case_witness :
  JS.toLowerCase "playing" = "playing".
Proof.
  apply (proj1 (sampled_status_is_lower_case
                  (helperEnds (Exited (Some 0) eightFields "") atStart) freshHost
                  (mkTrackInfo "Song" "file:///tmp/a.png" "Band" "Album"
                               (Some (JS.Num 200)) (Some (JS.Num 65)) "playing"
                               (Some "vlc")))
               (Linux.mkService true None ∅)).
  reflexivity.
Defined.

(* ===================================================================== *)
(** * Forgetting the cache *)
(* ===================================================================== *)

Section Forgetting.
Context (P : Platform).

Lemma linux_uncached_resolve this url h p :
  Linux.artworkCache this !! url = None ->
  (Linux.downloadArtwork P this url h).1.1 = Fulfilled (Some p) ->
  transfers (Linux.downloadArtwork P this url h).2 = (transfers h + 1)%nat.
Proof.
  intros Hc. unfold Linux.downloadArtwork. rewrite Hc.
  res_cases; simpl; try discriminate; intros _.
  all: unfold transfers; simpl; rewrite ?length_app; simpl; lia.
Qed.

Lemma windows_uncached_resolve this url h p :
  Windows.artworkCache this !! url = None ->
  (WindowsPolling.downloadArtwork P this url h).1.1 = Fulfilled (Some p) ->
  transfers (WindowsPolling.downloadArtwork P this url h).2 = (transfers h + 1)%nat.
Proof.
  intros Hc. unfold WindowsPolling.downloadArtwork. rewrite Hc.
  res_cases; simpl; try discriminate; intros _.
  all: unfold transfers; simpl; rewrite ?length_app; simpl; lia.
Qed.

(** What is kept and what is forgotten.  The utility reports a path it
    has just answered as cached, and reports nothing once its cache was
    cleared.  A service that was disposed has forgotten every locator:
    whatever was cached before, a resolve that then answers a path has
    made a new transfer, a GET or a copy, on the way. *)
Theorem cache_is_forgotten (url : string) (h : Host) :
  (forall this, ArtworkCache.getCachedArtwork (ArtworkCache.clearCache this) url = None)
  /\ (forall this p this1 h1,
      ArtworkUtil.downloadArtwork P this url h = ((Fulfilled (Some p), this1), h1) ->
      p <> "" ->
      ArtworkCache.getCachedArtwork this1 url = Some p)
  /\ (forall this p,
      (Linux.downloadArtwork P (LinuxPolling.dispose this) url h).1.1
      = Fulfilled (Some p) ->
      transfers (Linux.downloadArtwork P (LinuxPolling.dispose this) url h).2
      = (transfers h + 1)%nat)
  /\ (forall this p,
      (WindowsPolling.downloadArtwork P (WindowsPolling.dispose this) url h).1.1
      = Fulfilled (Some p) ->
      transfers (WindowsPolling.downloadArtwork P (WindowsPolling.dispose this) url h).2
      = (transfers h + 1)%nat).
Proof.
  split; [|split; [|split]].
  - intros this. unfold ArtworkCache.getCachedArtwork, ArtworkCache.clearCache. simpl.
    rewrite lookup_empty. reflexivity.
  - intros this p this1 h1 H Hp. apply util_first_resolve in H as (_ & _ & Hc & _).
    unfold ArtworkCache.getCachedArtwork. rewrite Hc.
    apply String.eqb_neq in Hp. rewrite Hp. reflexivity.
  - intros this p. apply linux_uncached_resolve, lookup_empty.
  - intros this p. apply windows_uncached_resolve, lookup_empty.
Qed.

End Forgetting.

(** A cover cached by the Linux service is fetched again after
    [dispose]. *)
Lemma cache_is_forgotten_witness :
  let P := stubPlatform (fun _ _ => SpawnFailed "ENOENT")
                        (fun _ _ => Response 200 Complete) atStart in
  let first := Linux.downloadArtwork P (Linux.mkService true None ∅)
                                     "http://host/cover.jpg" freshHost in
  transfers (Linux.downloadArtwork P (LinuxPolling.dispose first.1.2)
                                   "http://host/cover.jpg" first.2).2
  = 2%nat.
Proof.
  intros P first.
  destruct (cache_is_forgotten P "http://host/cover.jpg" first.2) as (_ & _ & H & _).
  rewrite (H first.1.2 "vscode-resource:///storage/uploads/artwork_0.jpg");
    reflexivity.
Defined.
